(** * Tiered storage of billing records: a model of [devops_screening_script.py]

    The script keeps billing records as files in four directories (the Hot,
    Cool and Archive tiers and a directory of rehydrated copies), moves them
    from tier to tier by age ([manage_data_tiers]) and looks them up by
    identifier ([retrieve_data]).

    The embedding follows the script function by function.  The file system
    is a finite map from paths to file contents, threaded through a state
    and exception monad: Python's [try]/[except] blocks are kept where the
    script has them.  What the script takes from Python's standard library
    ([json], [gzip], [datetime.fromisoformat], the order of [os.listdir])
    is an interface, [PyLib]; a small executable instance of it is given
    in [Module Ref] to run the model on concrete directories.  The script's
    [print] calls have no effect on files or results and are left out. *)

From Stdlib Require Import ZArith QArith String Ascii List SpecFloat.
From stdpp Require Import gmap strings list fin_maps pretty.

Local Open Scope string_scope.
Local Open Scope Z_scope.

(** ** Python values *)

(** What [json.loads] can return.  [JNull] is Python's [None], which is also
    what [read_data] returns on failure.  A [dict] keeps its items in
    insertion order; a float is identified by its [repr] (the script never
    computes with the numbers of a record). *)
#[warnings="-register-all"]
Inductive json : Type :=
  | JNull
  | JBool (b : bool)
  | JInt (z : Z)
  | JFloat (repr : string)
  | JStr (s : string)
  | JArr (items : list json)
  | JObj (members : list (string * json)).

(** [bool(v)], as used by [if not record_data] and [if data]. *)
Definition truthy (v : json) : bool :=
  match v with
  | JNull => false
  | JBool b => b
  | JInt z => negb (Z.eqb z 0)
  | JFloat r => negb (String.eqb r "0.0" || String.eqb r "-0.0")
  | JStr s => negb (String.eqb s "")
  | JArr items => match items with [] => false | _ => true end
  | JObj members => match members with [] => false | _ => true end
  end.

Inductive exn : Type :=
  | FileNotFoundError
  | PermissionError
  | OSError
  | BadGzipFile
  | JSONDecodeError
  | TypeError
  | KeyError
  | ValueError.

Inductive outcome (A : Type) : Type :=
  | Return (a : A)
  | Raise (e : exn).
Arguments Return {A} a.
Arguments Raise {A} e.

(** Sequencing, for plain outcomes and (below) for computations on the
    files. *)
Class Bind (F : Type → Type) : Type :=
  bind : ∀ {A B : Type}, F A → (A → F B) → F B.

Declare Scope py_scope.
Delimit Scope py_scope with py.
Notation "x ← y ; z" := (bind y (λ x, z))
  (at level 20, y at level 100, z at level 200, only parsing) : py_scope.
Notation "y ;; z" := (bind y (λ _, z))
  (at level 100, z at level 200, only parsing, right associativity) : py_scope.

Global Instance outcome_bind : Bind outcome := λ A B o k,
  match o with
  | Return a => k a
  | Raise e => Raise e
  end.

(** [sub in s] on two strings. *)
Fixpoint str_contains (sub s : string) : bool :=
  String.prefix sub s ||
  match s with
  | EmptyString => false
  | String _ rest => str_contains sub rest
  end.

(** [key in v]: membership in a dict's keys, in a list's items, substring of
    a string; [TypeError] on anything else. *)
Definition py_in (key : string) (v : json) : outcome bool :=
  match v with
  | JObj members => Return (existsb (λ kv, String.eqb (fst kv) key) members)
  | JArr items =>
      Return (existsb (λ x, match x with JStr s => String.eqb s key | _ => false end) items)
  | JStr s => Return (str_contains key s)
  | _ => Raise TypeError
  end.

Fixpoint dict_get (key : string) (members : list (string * json)) : option json :=
  match members with
  | [] => None
  | (k, v) :: rest => if String.eqb k key then Some v else dict_get key rest
  end.

(** [v[key]] with a string key. *)
Definition py_getitem (v : json) (key : string) : outcome json :=
  match v with
  | JObj members =>
      match dict_get key members with
      | Some x => Return x
      | None => Raise KeyError
      end
  | _ => Raise TypeError
  end.

(** [s.endswith(suffix)] *)
Fixpoint endswith (s suffix : string) : bool :=
  String.eqb s suffix ||
  match s with
  | EmptyString => false
  | String _ rest => endswith rest suffix
  end.

(** [s.replace('.gz', '')]: every occurrence is removed, scanning from the
    left; the text already scanned is not looked at again. *)
Fixpoint replace_gz (s : string) : string :=
  match s with
  | EmptyString => EmptyString
  | String "." (String "g" (String "z" rest)) => replace_gz rest
  | String c rest => String c (replace_gz rest)
  end.

(** ** Dates *)

(** A [datetime]: microseconds on the proleptic Gregorian time line, and the
    UTC offset when it is timezone-aware. *)
Record datetime : Type := Datetime { micros : Z; utcoffset : option Z }.

Definition us_per_day : Z := 86400000000.

(** [(now - invoice_date).days], [now] being naive ([datetime.now()]).
    Subtracting an aware datetime from a naive one raises [TypeError].  A
    [timedelta] is normalised with [0 <= seconds < 86400], so [days] is the
    floor of the difference. *)
Definition timedelta_days (now : Z) (d : datetime) : outcome Z :=
  match utcoffset d with
  | Some _ => Raise TypeError
  | None => Return ((now - micros d) / us_per_day)
  end.

(** [days / 30.44].  Python computes this quotient in binary64; the model
    keeps the exact rational.  For a whole number of days the quotients
    nearest to the two thresholds are 91/30.44 and 92/30.44 (365/30.44 and
    366/30.44), more than 0.009 away from 3 (from 12), so the rounding of
    the float quotient does not change the outcome of the comparison
    ([age_reached_binary64_agrees] checks it on eleven years of days). *)
Definition age_in_months (days : Z) : Q := inject_Z days / (3044 # 100).

Definition HOT_TIER_RETENTION_MONTHS : Z := 3.
Definition COOL_TIER_RETENTION_MONTHS : Z := 12.
Definition COOL_COMPRESSION_LEVEL : Z := 5.
Definition ARCHIVE_COMPRESSION_LEVEL : Z := 9.

(** [age_in_months >= threshold] *)
Definition age_reached (days threshold : Z) : bool :=
  Qle_bool (inject_Z threshold) (age_in_months days).

(** The same test in binary64 arithmetic, as Python evaluates it: the day
    count converted to a float, divided by the double nearest to 30.44, and
    compared with the threshold. *)
Definition binary64_of_Z (z : Z) : spec_float := binary_normalize 53 1024 z 0 false.

Definition binary64_30_44 : spec_float := S754_finite false 8568098291072369 (-48).

Definition age_reached_binary64 (days threshold : Z) : bool :=
  SFleb (binary64_of_Z threshold)
        (SFdiv 53 1024 (binary64_of_Z days) binary64_30_44).

Definition day_range (first : Z) (count : nat) : list Z :=
  map (λ k, first + Z.of_nat k) (seq 0 count).

(** ** Files *)

Inductive tier : Type := Hot | Cool | Archive | Rehydrated.

Global Instance tier_eq_dec : EqDecision tier.
Proof. solve_decision. Defined.

Definition tier_code (t : tier) : nat :=
  match t with Hot => 0 | Cool => 1 | Archive => 2 | Rehydrated => 3 end%nat.

Definition tier_of_code (n : nat) : tier :=
  match n with
  | O => Hot
  | S O => Cool
  | S (S O) => Archive
  | _ => Rehydrated
  end.

Global Instance tier_countable : Countable tier :=
  inj_countable' tier_code tier_of_code
    (λ t, match t with
          | Hot => eq_refl | Cool => eq_refl | Archive => eq_refl | Rehydrated => eq_refl
          end).

(** A path is a directory and a file name: [os.path.join(tier_path, filename)]
    for one of the four configured directories.  File names are taken not to
    contain a path separator. *)
Abbreviation path := (tier * string)%type.
Abbreviation bytes := string (only parsing).

(** [get_file_path(tier_path, filename, compressed)] *)
Definition get_file_path (t : tier) (filename : string) (compressed : bool) : path :=
  if compressed then (t, filename +:+ ".gz") else (t, filename).

(** The state the script acts on: the files of the four directories, and the
    seconds spent in [time.sleep]. *)
Record world : Type := World { files : gmap path string; slept : Z }.

Definition set_files (m : gmap path string) (w : world) : world :=
  World m (slept w).

(** What the environment makes fail: opening a file for reading, writing
    a file, removing it.  A write fails in one of two ways, which
    [torn_write] tells apart: [None] when the file cannot be opened, and is
    left as it was; [Some n] when it is opened, and so truncated, and the
    failure comes after [n] bytes have reached it.  Fixed during a run of
    the script. *)
Record env : Type := Env {
  deny_read : path → bool;
  deny_write : path → bool;
  deny_remove : path → bool;
  torn_write : path → option nat;
}.

(** ** The library interface *)

Class PyLib : Type := {
  (** [json.dumps(data, indent=2).encode('utf-8')] *)
  json_dumps : json → string;
  (** [json.loads(content.decode('utf-8'))]; [None] when either raises *)
  json_loads : string → option json;
  (** the bytes a [gzip.open(_, 'wb', compresslevel)] stream leaves on disk *)
  gzip_compress : Z → string → string;
  (** what a [gzip.open(_, 'rb')] stream reads; [None] when it raises *)
  gzip_decompress : string → option string;
  (** [datetime.fromisoformat]; [None] is [ValueError] *)
  fromisoformat : string → option datetime;
  (** the names [os.listdir] returns for a directory, in its order *)
  os_listdir : tier → gmap path string → list string;
}.

(** [os.listdir] returns the names of the files of the directory. *)
Definition listdir_lists `{PyLib} : Prop :=
  ∀ t (m : gmap path string) f, f ∈ os_listdir t m ↔ is_Some (m !! (t, f)).

(** [zlib.compressobj] accepts the levels -1 and 0 to 9. *)
Definition valid_level (l : Z) : bool := (-1 <=? l) && (l <=? 9).

(** ** An executable instance of the interface

    Enough of the library to run the script's model on concrete directories:
    JSON text as [json.dumps(_, indent=2)] writes it (strings escape the
    quote and the backslash only), a parser for that text, a gzip container
    that stores its payload after the two magic bytes and a level byte, ISO
    dates of the three shapes [isoformat()] prints for naive datetimes, and
    directory listings in the order of the map's keys. *)
Module Ref.

Definition quote : ascii := "034"%char.
Definition newline : ascii := "010"%char.

Fixpoint escape (s : string) : string :=
  match s with
  | EmptyString => EmptyString
  | String c rest =>
      if Ascii.eqb c quote || Ascii.eqb c "\"
      then String "\" (String c (escape rest))
      else String c (escape rest)
  end.

Definition print_string (s : string) : string :=
  String quote (escape s) +:+ String quote EmptyString.

Fixpoint indent (depth : nat) : string :=
  match depth with
  | O => ""
  | S d => "  " +:+ indent d
  end.

Definition line_break (depth : nat) : string := String newline (indent depth).

Fixpoint print (depth : nat) (v : json) : string :=
  match v with
  | JNull => "null"
  | JBool true => "true"
  | JBool false => "false"
  | JInt z => pretty z
  | JFloat r => r
  | JStr s => print_string s
  | JArr [] => "[]"
  | JArr (x :: xs) =>
      "[" +:+ line_break (S depth) +:+ print (S depth) x
      +:+ (fix more (l : list json) : string :=
             match l with
             | [] => ""
             | y :: l' => "," +:+ line_break (S depth) +:+ print (S depth) y +:+ more l'
             end) xs
      +:+ line_break depth +:+ "]"
  | JObj [] => "{}"
  | JObj ((k, x) :: ms) =>
      "{" +:+ line_break (S depth) +:+ print_string k +:+ ": " +:+ print (S depth) x
      +:+ (fix more (l : list (string * json)) : string :=
             match l with
             | [] => ""
             | (k', y) :: l' =>
                 "," +:+ line_break (S depth) +:+ print_string k' +:+ ": "
                 +:+ print (S depth) y +:+ more l'
             end) ms
      +:+ line_break depth +:+ "}"
  end.

Definition is_space (c : ascii) : bool :=
  Ascii.eqb c " " || Ascii.eqb c newline || Ascii.eqb c "009" || Ascii.eqb c "013".

Fixpoint skip_ws (s : string) : string :=
  match s with
  | String c rest => if is_space c then skip_ws rest else s
  | EmptyString => s
  end.

(** [strip p s]: what follows [p] in [s], when [s] starts with [p]. *)
Fixpoint strip (p s : string) : option string :=
  match p, s with
  | EmptyString, _ => Some s
  | String a p', String b s' => if Ascii.eqb a b then strip p' s' else None
  | String _ _, EmptyString => None
  end.

(** The characters of a string literal after its opening quote. *)
Fixpoint parse_chars (s : string) : option (string * string) :=
  match s with
  | EmptyString => None
  | String c rest =>
      if Ascii.eqb c quote then Some (EmptyString, rest)
      else if Ascii.eqb c "\" then
        match rest with
        | String c' rest' =>
            '(t, r) ← parse_chars rest'; Some (String c' t, r)
        | EmptyString => None
        end
      else '(t, r) ← parse_chars rest; Some (String c t, r)
  end.

Definition is_digit (c : ascii) : bool :=
  (48 <=? nat_of_ascii c)%nat && (nat_of_ascii c <=? 57)%nat.

Definition is_number_char (c : ascii) : bool :=
  is_digit c || Ascii.eqb c "-" || Ascii.eqb c "+" || Ascii.eqb c "."
  || Ascii.eqb c "e" || Ascii.eqb c "E".

Fixpoint take_number (s : string) : string * string :=
  match s with
  | String c rest =>
      if is_number_char c
      then let '(tok, r) := take_number rest in (String c tok, r)
      else (EmptyString, s)
  | EmptyString => (EmptyString, s)
  end.

Fixpoint digits_value (acc : Z) (s : string) : option Z :=
  match s with
  | EmptyString => Some acc
  | String c rest =>
      if is_digit c
      then digits_value (10 * acc + (Z.of_nat (nat_of_ascii c) - 48)) rest
      else None
  end.

(** An integer literal is a [JInt]; any other number token is taken as
    the [repr] of a float. *)
Definition parse_number (tok : string) : option json :=
  match tok with
  | EmptyString => None
  | String "-" EmptyString => None
  | String "-" digits =>
      match digits_value 0 digits with
      | Some z => Some (JInt (- z))
      | None => Some (JFloat tok)
      end
  | _ =>
      match digits_value 0 tok with
      | Some z => Some (JInt z)
      | None => Some (JFloat tok)
      end
  end.

Fixpoint parse_value (fuel : nat) (s : string) : option (json * string) :=
  match fuel with
  | O => None
  | S n =>
      let s := skip_ws s in
      match strip "null" s, strip "true" s, strip "false" s with
      | Some r, _, _ => Some (JNull, r)
      | _, Some r, _ => Some (JBool true, r)
      | _, _, Some r => Some (JBool false, r)
      | _, _, _ =>
          match s with
          | String c rest =>
              if Ascii.eqb c quote then
                '(t, r) ← parse_chars rest; Some (JStr t, r)
              else if Ascii.eqb c "[" then
                match strip "]" (skip_ws rest) with
                | Some r => Some (JArr [], r)
                | None => '(vs, r) ← parse_items n rest; Some (JArr vs, r)
                end
              else if Ascii.eqb c "{" then
                match strip "}" (skip_ws rest) with
                | Some r => Some (JObj [], r)
                | None => '(ms, r) ← parse_members n rest; Some (JObj ms, r)
                end
              else
                let '(tok, r) := take_number s in
                v ← parse_number tok; Some (v, r)
          | EmptyString => None
          end
      end
  end
with parse_items (fuel : nat) (s : string) : option (list json * string) :=
  match fuel with
  | O => None
  | S n =>
      '(v, r) ← parse_value n s;
      let r := skip_ws r in
      match strip "," r, strip "]" r with
      | Some r', _ => '(vs, r'') ← parse_items n r'; Some (v :: vs, r'')
      | _, Some r' => Some ([v], r')
      | _, _ => None
      end
  end
with parse_members (fuel : nat) (s : string)
  : option (list (string * json) * string) :=
  match fuel with
  | O => None
  | S n =>
      r0 ← strip (String quote EmptyString) (skip_ws s);
      '(k, r1) ← parse_chars r0;
      r2 ← strip ":" (skip_ws r1);
      '(v, r3) ← parse_value n r2;
      let r3 := skip_ws r3 in
      match strip "," r3, strip "}" r3 with
      | Some r', _ => '(ms, r'') ← parse_members n r'; Some ((k, v) :: ms, r'')
      | _, Some r' => Some ([(k, v)], r')
      | _, _ => None
      end
  end.

Definition dumps (v : json) : string := print 0 v.

Definition loads (s : string) : option json :=
  '(v, r) ← parse_value (S (String.length s)) s;
  match skip_ws r with
  | EmptyString => Some v
  | String _ _ => None
  end.

Definition gzip_magic : string := String "031" (String "139" EmptyString).

Definition compress (level : Z) (content : string) : string :=
  gzip_magic +:+ String (ascii_of_nat (Z.to_nat (level + 1))) content.

Definition decompress (raw : string) : option string :=
  match strip gzip_magic raw with
  | Some (String _ content) => Some content
  | _ => None
  end.

(** Days from 1970-01-01 to the given date of the Gregorian calendar. *)
Definition days_from_civil (y m d : Z) : Z :=
  let y' := if m <=? 2 then y - 1 else y in
  let era := y' / 400 in
  let yoe := y' - era * 400 in
  let doy := (153 * (if 2 <? m then m - 3 else m + 9) + 2) / 5 + d - 1 in
  let doe := yoe * 365 + yoe / 4 - yoe / 100 + doy in
  era * 146097 + doe - 719468.

(** [len] digits of [s] from position [start]. *)
Definition field (start len : nat) (s : string) : option Z :=
  let f := substring start len s in
  if (String.length f =? len)%nat then digits_value 0 f else None.

Definition sep (pos : nat) (c : ascii) (s : string) : bool :=
  match String.get pos s with
  | Some c' => Ascii.eqb c c'
  | None => false
  end.

(** [YYYY-MM-DD], [YYYY-MM-DDTHH:MM:SS] and [YYYY-MM-DDTHH:MM:SS.ffffff] *)
Definition parse_iso (s : string) : option datetime :=
  y ← field 0 4 s; mo ← field 5 2 s; d ← field 8 2 s;
  if negb (sep 4 "-" s && sep 7 "-" s && (1 <=? mo) && (mo <=? 12)
           && (1 <=? d) && (d <=? 31)) then None
  else
    let day := days_from_civil y mo d * us_per_day in
    let n := String.length s in
    if (n =? 10)%nat then Some (Datetime day None)
    else
      h ← field 11 2 s; mi ← field 14 2 s; sec ← field 17 2 s;
      if negb (sep 10 "T" s && sep 13 ":" s && sep 16 ":" s
               && (h <? 24) && (mi <? 60) && (sec <? 60)) then None
      else
        let t := day + ((h * 60 + mi) * 60 + sec) * 1000000 in
        if (n =? 19)%nat then Some (Datetime t None)
        else if (n =? 26)%nat && sep 19 "." s then
          us ← field 20 6 s; Some (Datetime (t + us) None)
        else None.

Definition listdir (t : tier) (m : gmap path string) : list string :=
  omap (λ kv : path * string, if decide (kv.1.1 = t) then Some kv.1.2 else None)
       (map_to_list m).

Global Instance lib : PyLib := {|
  json_dumps := dumps;
  json_loads := loads;
  gzip_compress := compress;
  gzip_decompress := decompress;
  fromisoformat := parse_iso;
  os_listdir := listdir;
|}.

End Ref.

(** ** State and exceptions *)

Definition M (A : Type) : Type := world → outcome A * world.

Definition ret {A} (a : A) : M A := λ w, (Return a, w).

Global Instance M_bind : Bind M := λ A B m k w,
  match m w with
  | (Return a, w') => k a w'
  | (Raise e, w') => (Raise e, w')
  end.

Local Open Scope py_scope.

Definition raise {A} (e : exn) : M A := λ w, (Raise e, w).

(** [try: body  except Exception as e: handler] *)
Definition try_except {A} (body : M A) (handler : exn → M A) : M A := λ w,
  match body w with
  | (Raise e, w') => handler e w'
  | r => r
  end.

(** Lift a computation that does not touch the state. *)
Definition lift {A} (o : outcome A) : M A := λ w, (o, w).

Section Script.
Context `{L : PyLib} (E : env).

(** [open(p, 'rb').read()] *)
Definition open_read (p : path) : M string := λ w,
  match files w !! p with
  | None => (Raise FileNotFoundError, w)
  | Some content =>
      if deny_read E p then (Raise PermissionError, w) else (Return content, w)
  end.

(** [open(p, 'wb')] followed by one [write] and the closing of the file.
    Opening truncates the file, so a failure after it leaves the part of
    the content that was written, and nothing of what the file held. *)
Definition open_write (p : path) (content : string) : M unit := λ w,
  if deny_write E p then
    match torn_write E p with
    | None => (Raise PermissionError, w)
    | Some n =>
        (Raise OSError,
         set_files (<[p := String.substring 0 n content]> (files w)) w)
    end
  else (Return (), set_files (<[p := content]> (files w)) w).

(** [gzip.open(p, 'wb', compresslevel=level)] followed by one [write].  The
    file is opened before the compressor is created, so a level [zlib]
    rejects leaves an empty file behind. *)
Definition gzip_open_write (p : path) (level : Z) (content : string) : M unit :=
  if valid_level level then open_write p (gzip_compress level content)
  else (open_write p "";; raise ValueError).

(** [gzip.open(p, 'rb').read()] *)
Definition gzip_open_read (p : path) : M string :=
  raw ← open_read p;
  match gzip_decompress raw with
  | Some content => ret content
  | None => raise BadGzipFile
  end.

(** [os.remove(p)] *)
Definition os_remove (p : path) : M unit := λ w,
  match files w !! p with
  | None => (Raise FileNotFoundError, w)
  | Some _ =>
      if deny_remove E p then (Raise PermissionError, w)
      else (Return (), set_files (delete p (files w)) w)
  end.

(** [os.path.exists(p)] *)
Definition os_path_exists (p : path) : M bool := λ w,
  (Return (bool_decide (is_Some (files w !! p))), w).

(** [shutil.copyfile(src, dst)] *)
Definition shutil_copyfile (src dst : path) : M unit :=
  content ← open_read src; open_write dst content.

(** [time.sleep(seconds)] *)
Definition time_sleep (seconds : Z) : M unit := λ w,
  (Return (), World (files w) (slept w + seconds)).

(** [write_data(file_path, data, compress_level)]: every exception is
    caught (and printed), so the caller cannot tell whether the file was
    written. *)
Definition write_data (file_path : path) (data : json) (compress_level : option Z)
  : M unit :=
  try_except
    (let json_data := json_dumps data in
     match compress_level with
     | Some level => gzip_open_write file_path level json_data
     | None => open_write file_path json_data
     end)
    (λ _, ret ()).

(** [read_data(file_path, compressed)]: [None] on any exception. *)
Definition read_data (file_path : path) (compressed : bool) : M json :=
  try_except
    (content ← (if compressed then gzip_open_read file_path
                else open_read file_path);
     match json_loads content with
     | Some v => ret v
     | None => raise JSONDecodeError
     end)
    (λ _, ret JNull).

(** [datetime.fromisoformat(v)]: [TypeError] unless [v] is a string. *)
Definition datetime_fromisoformat (v : json) : outcome datetime :=
  match v with
  | JStr s =>
      match fromisoformat s with
      | Some d => Return d
      | None => Raise ValueError
      end
  | _ => Raise TypeError
  end.

(** The part of both loop bodies between [read_data] and the age test:
    the whole days elapsed since the record's [invoice_date], or [None]
    where the script says [continue].  It does not touch the files. *)
Definition record_age (now : Z) (record_data : json) : outcome (option Z) :=
  if negb (truthy record_data) then Return None
  else
    has_date ← py_in "invoice_date" record_data;
    if negb has_date then Return None
    else
      date ← py_getitem record_data "invoice_date";
      invoice_date ← datetime_fromisoformat date;
      days ← timedelta_days now invoice_date;
      Return (Some days).

(** [for x in l: body(x)] *)
Fixpoint for_each {A} (l : list A) (body : A → M unit) : M unit :=
  match l with
  | [] => ret ()
  | x :: rest => body x;; for_each rest body
  end.

Definition listdir (t : tier) : M (list string) := λ w,
  (Return (os_listdir t (files w)), w).

(** Body of the loop over [os.listdir(HOT_TIER_PATH)]. *)
Definition hot_to_cool (now : Z) (filename : string) : M unit :=
  if negb (endswith filename ".json") then ret ()
  else
    let file_path := get_file_path Hot filename false in
    try_except
      (record_data ← read_data file_path false;
       age ← lift (record_age now record_data);
       match age with
       | None => ret ()
       | Some days =>
           if age_reached days HOT_TIER_RETENTION_MONTHS then
             let cool_file_path := get_file_path Cool filename true in
             write_data cool_file_path record_data (Some COOL_COMPRESSION_LEVEL);;
             os_remove file_path
           else ret ()
       end)
      (λ _, ret ()).

(** Body of the loop over [os.listdir(COOL_TIER_PATH)]. *)
Definition cool_to_archive (now : Z) (filename_gz : string) : M unit :=
  if negb (endswith filename_gz ".json.gz") then ret ()
  else
    let original_filename := replace_gz filename_gz in
    let file_path_cool := get_file_path Cool original_filename true in
    try_except
      (record_data ← read_data file_path_cool true;
       age ← lift (record_age now record_data);
       match age with
       | None => ret ()
       | Some days =>
           if age_reached days COOL_TIER_RETENTION_MONTHS then
             let archive_file_path := get_file_path Archive original_filename true in
             write_data archive_file_path record_data (Some ARCHIVE_COMPRESSION_LEVEL);;
             os_remove file_path_cool
           else ret ()
       end)
      (λ _, ret ()).

(** [manage_data_tiers()], with the value of [datetime.now()] it reads on
    entry as a parameter.  The directory of the Cool tier is listed after
    the loop over the Hot tier has finished. *)
Definition manage_data_tiers (now : Z) : M unit :=
  hot_names ← listdir Hot;
  for_each hot_names (hot_to_cool now);;
  cool_names ← listdir Cool;
  for_each cool_names (cool_to_archive now).

(** [retrieve_data(record_id, high_priority)] *)
Definition retrieve_data (record_id : string) (high_priority : bool) : M json :=
  let filename := record_id +:+ ".json" in
  let file_path_hot := get_file_path Hot filename false in
  in_hot ← os_path_exists file_path_hot;
  if in_hot then read_data file_path_hot false
  else
    let file_path_cool := get_file_path Cool filename true in
    in_cool ← os_path_exists file_path_cool;
    if in_cool then read_data file_path_cool true
    else
      let file_path_archive := get_file_path Archive filename true in
      in_archive ← os_path_exists file_path_archive;
      if in_archive then
        let retrieval_time_sec := if high_priority then 5 else 15 in
        time_sleep retrieval_time_sec;;
        let rehydrated_path := (Rehydrated, filename) in
        let rehydrated_gz := (Rehydrated, filename +:+ ".gz") in
        try_except
          (shutil_copyfile file_path_archive rehydrated_gz;;
           data ← read_data rehydrated_gz true;
           os_remove rehydrated_gz;;
           if truthy data then
             write_data rehydrated_path data None;;
             ret data
           else ret JNull)
          (λ _, ret JNull)
      else ret JNull.

End Script.

(** ** Records and tiers *)

(** Where [retrieve_data] looks for a record in a tier. *)
Definition tier_path (t : tier) (record_id : string) : path :=
  match t with
  | Hot => get_file_path Hot (record_id +:+ ".json") false
  | _ => get_file_path t (record_id +:+ ".json") true
  end.

Definition in_tier (m : gmap path string) (t : tier) (record_id : string) : Prop :=
  is_Some (m !! tier_path t record_id).

Definition lifecycle_tier (t : tier) : Prop := t ≠ Rehydrated.

(** No identifier is in two of Hot, Cool and Archive. *)
Definition at_most_one_tier (m : gmap path string) : Prop :=
  ∀ record_id t1 t2,
    lifecycle_tier t1 → lifecycle_tier t2 →
    in_tier m t1 record_id → in_tier m t2 record_id → t1 = t2.

(** ** What the two loops do to the files

    The functions of this section are read off the script's model and are
    proved below to describe it ([read_data_eq], [write_data_eq],
    [hot_to_cool_eq], [cool_to_archive_eq], [manage_data_tiers_eq]); the
    properties of a pass are then proved on them. *)
Section Effect.
Context `{L : PyLib} (E : env).

(** What [read_data] returns for a file of the map. *)
Definition read_value (p : path) (compressed : bool) (m : gmap path string) : json :=
  match m !! p with
  | None => JNull
  | Some raw =>
      if deny_read E p then JNull
      else
        match (if compressed then gzip_decompress raw else Some raw) with
        | None => JNull
        | Some content => default JNull (json_loads content)
        end
  end.

(** The bytes [write_data] puts on disk. *)
Definition payload (data : json) (compress_level : option Z) : string :=
  match compress_level with
  | None => json_dumps data
  | Some level =>
      if valid_level level then gzip_compress level (json_dumps data) else ""
  end.

(** What a write that fails leaves behind. *)
Definition torn (p : path) (content : string) (m : gmap path string)
  : gmap path string :=
  match torn_write E p with
  | None => m
  | Some n => <[p := String.substring 0 n content]> m
  end.

Definition store (p : path) (content : string) (m : gmap path string)
  : gmap path string :=
  if deny_write E p then torn p content m else <[p := content]> m.

Definition unlink (p : path) (m : gmap path string) : gmap path string :=
  if deny_remove E p then m else delete p m.

(** The record passes the age test of a loop body. *)
Definition due (now threshold : Z) (record_data : json) : bool :=
  match record_age now record_data with
  | Return (Some days) => age_reached days threshold
  | _ => false
  end.

(** One record handled by a loop body: read at [src], and when it is due,
    written at [dst] and removed at [src]. *)
Definition transfer (now threshold level : Z) (compressed : bool) (src dst : path)
    (m : gmap path string) : gmap path string :=
  let record_data := read_value src compressed m in
  if due now threshold record_data
  then unlink src (store dst (payload record_data (Some level)) m)
  else m.

Definition hot_step (now : Z) (m : gmap path string) (filename : string)
  : gmap path string :=
  if endswith filename ".json" then
    transfer now HOT_TIER_RETENTION_MONTHS COOL_COMPRESSION_LEVEL false
      (Hot, filename) (Cool, filename +:+ ".gz") m
  else m.

Definition cool_step (now : Z) (m : gmap path string) (filename_gz : string)
  : gmap path string :=
  if endswith filename_gz ".json.gz" then
    transfer now COOL_TIER_RETENTION_MONTHS ARCHIVE_COMPRESSION_LEVEL true
      (Cool, replace_gz filename_gz +:+ ".gz")
      (Archive, replace_gz filename_gz +:+ ".gz") m
  else m.

(** The loop over the Hot tier moves the file of this name. *)
Definition moves_from_hot (now : Z) (m : gmap path string) (filename : string)
  : bool :=
  endswith filename ".json"
  && due now HOT_TIER_RETENTION_MONTHS (read_value (Hot, filename) false m).

(** The loop over the Cool tier, at this name of its listing, moves a
    file. *)
Definition moves_from_cool (now : Z) (m : gmap path string) (filename_gz : string)
  : bool :=
  endswith filename_gz ".json.gz"
  && due now COOL_TIER_RETENTION_MONTHS
       (read_value (Cool, replace_gz filename_gz +:+ ".gz") true m).

(** The rehydration of an archived record, step by step: the result and
    the files it leaves. *)
Definition rehydrated (record_id : string) (m : gmap path string)
  : json * gmap path string :=
  let src := tier_path Archive record_id in
  let tmp := (Rehydrated, (record_id +:+ ".json") +:+ ".gz") in
  let dst := (Rehydrated, record_id +:+ ".json") in
  match m !! src with
  | None => (JNull, m)
  | Some raw =>
      if deny_read E src then (JNull, m)
      else if deny_write E tmp then (JNull, torn tmp raw m)
      else
        let m1 := <[tmp := raw]> m in
        let data := read_value tmp true m1 in
        if deny_remove E tmp then (JNull, m1)
        else
          let m2 := delete tmp m1 in
          if truthy data then (data, store dst (json_dumps data) m2)
          else (JNull, m2)
  end.

Definition hot_scan (now : Z) (m : gmap path string) : gmap path string :=
  foldl (hot_step now) m (os_listdir Hot m).

Definition cool_scan (now : Z) (m : gmap path string) : gmap path string :=
  foldl (cool_step now) m (os_listdir Cool m).

End Effect.

(** The age of the specification: the elapsed time in days, fractions of a
    day included, divided by 30.44. *)
Definition spec_age_months (elapsed_us : Z) : Q :=
  (elapsed_us # 1) / (us_per_day # 1) / (3044 # 100).

(** An environment that refuses nothing. *)
Definition permissive : env :=
  Env (λ _, false) (λ _, false) (λ _, false) (λ _, None).

(** The identifier is in one of Hot, Cool and Archive. *)
Definition in_some_tier (m : gmap path string) (record_id : string) : Prop :=
  ∃ t, lifecycle_tier t ∧ in_tier m t record_id.

(** ** Ingestion

    [generate_billing_record] and [ingest_data].  What they take from the
    library beyond [PyLib] is a second interface: the two ways a date is
    printed, [round] and [repr] on floats (a float of a record is kept by
    its [repr]), and where [datetime.min] and [datetime.max] lie on the time
    line.  Float arithmetic itself is binary64, as [SpecFloat] defines it. *)

Class PyFormat : Type := {
  (** [date.isoformat()] *)
  isoformat : datetime → string;
  (** [date.strftime('%Y-%m-%d')] *)
  strftime_ymd : datetime → string;
  (** [round(x, ndigits)] *)
  float_round : spec_float → Z → spec_float;
  (** [repr(x)], which is also how [json.dumps] writes a float *)
  float_repr : spec_float → string;
  (** [datetime.min] and [datetime.max], in microseconds *)
  datetime_min : Z;
  datetime_max : Z;
}.

Global Instance option_bind : Bind option := λ A B o k,
  match o with
  | Some a => k a
  | None => None
  end.

Fixpoint zeros (n : nat) : string :=
  match n with
  | O => ""
  | S k => String "0" (zeros k)
  end.

(** [f"{n:0Wd}"]: the decimal digits of [n], padded with zeros after the
    sign up to [width] characters. *)
Definition format_d (width : nat) (n : Z) : string :=
  let sign := if n <? 0 then "-" else "" in
  let digits := pretty (Z.to_N (Z.abs n)) in
  sign +:+ zeros (width - String.length sign - String.length digits) +:+ digits.

(** The number a string of decimal digits stands for, read from the left;
    [int(s)] on the digits [format_d] prints. *)
Definition digit_of (c : ascii) : N := (N_of_ascii c - 48)%N.

Fixpoint decimal_value (acc : N) (s : string) : N :=
  match s with
  | EmptyString => acc
  | String c rest => decimal_value (10 * acc + digit_of c)%N rest
  end.

(** No character of the string is a dot. *)
Fixpoint dotless (s : string) : bool :=
  match s with
  | EmptyString => true
  | String c rest => negb (Ascii.eqb c ".") && dotless rest
  end.

(** [float(n)], as done when an [int] meets a [float] in arithmetic; [None]
    is [OverflowError], raised when the nearest float is not finite. *)
Definition float_of_int (n : Z) : option spec_float :=
  match binary64_of_Z n with
  | S754_infinity _ => None
  | x => Some x
  end.

Definition binary64_1_23 : spec_float := S754_finite false 5539427541665710 (-52).
Definition binary64_20_5 : spec_float := S754_finite false 5770237022568448 (-48).
Definition binary64_5_1 : spec_float := S754_finite false 5742089524897382 (-50).

(** [f"BILL-{record_id:05d}"] *)
Definition billing_record_id (record_id : Z) : string :=
  "BILL-" +:+ format_d 5 record_id.

(** [range(n)] *)
Definition py_range (n : Z) : list Z := map Z.of_nat (seq 0 (Z.to_nat n)).

(** What [ingest_data] ends with: it returns, or an [OverflowError] of the
    date arithmetic or of [generate_billing_record] leaves it. *)
Inductive ingest_outcome : Type := Ingested | OverflowError.

Section Ingestion.
Context `{L : PyLib} `{F : PyFormat} (E : env).

(** [generate_billing_record(record_id, date)]; [None] is the
    [OverflowError] of [record_id * 1.23] for a [record_id] no float can
    hold. *)
Definition generate_billing_record (record_id : Z) (date : datetime) : option json :=
  x ← float_of_int record_id;
  let amount :=
    float_round (SFadd 53 1024 (SFmul 53 1024 x binary64_1_23) (binary64_of_Z 100)) 2 in
  let compute_price :=
    float_round (SFadd 53 1024 binary64_20_5 (binary64_of_Z (record_id `mod` 3))) 2 in
  let storage_price :=
    float_round (SFadd 53 1024 binary64_5_1 (binary64_of_Z (record_id `mod` 2))) 2 in
  Some (JObj
    [("record_id", JStr (billing_record_id record_id));
     ("customer_id", JStr ("CUST-" +:+ format_d 3 (record_id `mod` 100 + 1)));
     ("invoice_date", JStr (isoformat date));
     ("amount", JFloat (float_repr amount));
     ("currency", JStr "USD");
     ("description",
      JStr ("Service usage for period ending " +:+ strftime_ymd date));
     ("line_items",
      JArr [JObj [("item", JStr "Compute");
                  ("qty", JInt (record_id `mod` 5 + 1));
                  ("price", JFloat (float_repr compute_price))];
            JObj [("item", JStr "Storage");
                  ("qty", JInt (record_id `mod` 10 + 1));
                  ("price", JFloat (float_repr storage_price))]])]).

(** The loop of [ingest_data] over the record numbers.  The file name is
    [f"{record['record_id']}.json"], and the [record_id] of the record just
    generated is [billing_record_id record_id] ([generated_record_id]). *)
Fixpoint ingest_records (current_date : datetime) (record_ids : list Z) (w : world)
  : ingest_outcome * world :=
  match record_ids with
  | [] => (Ingested, w)
  | record_id :: rest =>
      match generate_billing_record record_id current_date with
      | None => (OverflowError, w)
      | Some record =>
          let filename := billing_record_id record_id +:+ ".json" in
          let w' := (write_data E (get_file_path Hot filename false) record None w).2 in
          ingest_records current_date rest w'
      end
  end.

(** [ingest_data(num_records, days_ago)], with the value of [datetime.now()]
    as a parameter.  [timedelta(days=days_ago)] raises [OverflowError] beyond
    999999999 days, and so does the subtraction when the date leaves
    [datetime.min .. datetime.max]. *)
Definition ingest_data (now : Z) (num_records days_ago : Z) (w : world)
  : ingest_outcome * world :=
  if 999999999 <? Z.abs days_ago then (OverflowError, w)
  else
    let t := now - days_ago * us_per_day in
    if (t <? datetime_min) || (datetime_max <? t) then (OverflowError, w)
    else
      ingest_records (Datetime t None) (map (λ i, i + 1) (py_range num_records)) w.

End Ingestion.

(** An executable instance of [PyFormat], on the time line of [Ref] (from
    1970-01-01): dates as [isoformat()] prints a naive datetime, and floats
    that are hundredths of magnitude below 10^15, for which [repr] is the
    decimal with its trailing zeros dropped. *)
Module RefFormat.

(** Year, month and day of a day number. *)
Definition civil_from_days (days : Z) : Z * Z * Z :=
  let z := days + 719468 in
  let era := z / 146097 in
  let doe := z - era * 146097 in
  let yoe := (doe - doe / 1460 + doe / 36524 - doe / 146096) / 365 in
  let doy := doe - (365 * yoe + yoe / 4 - yoe / 100) in
  let mp := (5 * doy + 2) / 153 in
  let d := doy - (153 * mp + 2) / 5 + 1 in
  let m := if mp <? 10 then mp + 3 else mp - 9 in
  (yoe + era * 400 + (if m <=? 2 then 1 else 0), m, d).

Definition print_date (d : datetime) : string :=
  let '(y, m, day) := civil_from_days (micros d / us_per_day) in
  format_d 4 y +:+ "-" +:+ format_d 2 m +:+ "-" +:+ format_d 2 day.

Definition print_datetime (d : datetime) : string :=
  let us := micros d `mod` us_per_day in
  let sec := us / 1000000 in
  print_date d +:+ "T" +:+ format_d 2 (sec / 3600) +:+ ":"
  +:+ format_d 2 ((sec / 60) `mod` 60) +:+ ":" +:+ format_d 2 (sec `mod` 60)
  +:+ (if us `mod` 1000000 =? 0 then "" else "." +:+ format_d 6 (us `mod` 1000000)).

(** The nearest whole number of hundredths, ties to even. *)
Definition hundredths (x : spec_float) : Z :=
  match x with
  | S754_finite s m e =>
      let n := Z.pos m * 100 in
      let h :=
        if 0 <=? e then n * 2 ^ e
        else
          let q := n / 2 ^ (- e) in
          let r := n `mod` 2 ^ (- e) in
          if (2 * r <? 2 ^ (- e)) || ((2 * r =? 2 ^ (- e)) && Z.even q)
          then q else q + 1 in
      if s then - h else h
  | _ => 0
  end.

Definition round2 (x : spec_float) (ndigits : Z) : spec_float :=
  SFdiv 53 1024 (binary64_of_Z (hundredths x)) (binary64_of_Z 100).

Definition print_float (x : spec_float) : string :=
  let h := hundredths x in
  let cents := Z.abs h `mod` 100 in
  (if h <? 0 then "-" else "") +:+ pretty (Z.abs h / 100) +:+ "."
  +:+ (if cents `mod` 10 =? 0 then pretty (cents / 10) else format_d 2 cents).

Global Instance lib : PyFormat := {|
  isoformat := print_datetime;
  strftime_ymd := print_date;
  float_round := round2;
  float_repr := print_float;
  datetime_min := Ref.days_from_civil 1 1 1 * us_per_day;
  datetime_max := (Ref.days_from_civil 9999 12 31 + 1) * us_per_day - 1;
|}.

End RefFormat.

(** ** Fixtures: the record [generate_billing_record(1, date)] makes *)
Module Fixture.

(** 2026-11-03 12:00:00 *)
Definition now : Z :=
  Ref.days_from_civil 2026 11 3 * us_per_day + 12 * 3600 * 1000000.

Definition record (invoice_date : string) : json :=
  JObj [("record_id", JStr "BILL-00001");
        ("customer_id", JStr "CUST-002");
        ("invoice_date", JStr invoice_date);
        ("amount", JFloat "101.23");
        ("currency", JStr "USD");
        ("description", JStr "Service usage for period ending");
        ("line_items",
         JArr [JObj [("item", JStr "Compute"); ("qty", JInt 2); ("price", JFloat "21.5")];
               JObj [("item", JStr "Storage"); ("qty", JInt 2); ("price", JFloat "6.1")]])].

(** 10, 100 and 400 days before [now] *)
Definition recent : json := record "2026-10-24T12:00:00".
Definition aged : json := record "2026-07-26T12:00:00".
Definition old : json := record "2025-09-29T12:00:00".

Definition hot_file : path := tier_path Hot "BILL-00001".
Definition cool_file : path := tier_path Cool "BILL-00001".
Definition archive_file : path := tier_path Archive "BILL-00001".
Definition cache_file : path := (Rehydrated, "BILL-00001.json").

Definition in_hot (v : json) : world :=
  World {[ hot_file := json_dumps v ]} 0.

Definition in_archive (v : json) : world :=
  World {[ archive_file := gzip_compress ARCHIVE_COMPRESSION_LEVEL (json_dumps v) ]} 0.

(** An archived record and a stale entry under its identifier in the
    directory of rehydrated copies. *)
Definition archived_stale_cache : world :=
  World {[ archive_file := gzip_compress ARCHIVE_COMPRESSION_LEVEL (json_dumps old);
           cache_file := json_dumps recent ]} 0.

(** Three records in Hot, 400, 100 and 10 days old, one in Cool, 100 days
    old, and a file that is no record. *)
Definition mixed : world :=
  World {[ (Hot, "BILL-00001.json") := json_dumps old;
           (Hot, "BILL-00002.json") := json_dumps aged;
           (Hot, "BILL-00003.json") := json_dumps recent;
           (Hot, "notes.txt") := "not a record";
           (Cool, "BILL-00004.json.gz") :=
             gzip_compress COOL_COMPRESSION_LEVEL (json_dumps aged) ]} 0.

(** The Cool directory cannot be written to. *)
Definition cool_refused : env :=
  Env (λ _, false) (λ p, bool_decide (p.1 = Cool)) (λ _, false) (λ _, None).

(** The entry of the record in the directory of rehydrated copies cannot
    be written. *)
Definition cache_refused : env :=
  Env (λ _, false) (λ p, bool_decide (p = cache_file)) (λ _, false)
    (λ _, None).

(** The writing of that entry fails after its file was opened, when two
    bytes have reached it. *)
Definition cache_torn : env :=
  Env (λ _, false) (λ p, bool_decide (p = cache_file)) (λ _, false)
    (λ _, Some 2%nat).



End Fixture.

(** * Properties *)

(** ** The model and its effect on the files *)

Lemma set_files_files w : set_files (files w) w = w.
Proof. by destruct w. Qed.



Section Equations.
Context `{L : PyLib} (E : env).

Lemma read_data_eq p compressed w :
  read_data E p compressed w = (Return (read_value E p compressed (files w)), w).
Proof.
  unfold read_data, read_value, try_except, gzip_open_read, open_read.
  unfold bind, M_bind, raise, ret.
  destruct compressed; destruct (files w !! p) as [raw|]; try done;
    destruct (deny_read E p); try done.
  - destruct (gzip_decompress raw) as [content|]; [|done].
    by destruct (json_loads content).
  - by destruct (json_loads raw).
Qed.

Lemma write_data_eq p data level w :
  write_data E p data level w
  = (Return (), set_files (store E p (payload data level) (files w)) w).
Proof.
  unfold write_data, try_except, gzip_open_write, open_write, store, torn.
  unfold payload, bind, M_bind, raise, ret.
  destruct level as [l|].
  - destruct (valid_level l); destruct (deny_write E p);
      destruct (torn_write E p); by rewrite ?set_files_files.
  - destruct (deny_write E p); destruct (torn_write E p);
      by rewrite ?set_files_files.
Qed.


(** A record that is due was read from a file. *)
Lemma due_read_present now threshold p compressed m :
  due now threshold (read_value E p compressed m) = true → is_Some (m !! p).
Proof.
  unfold read_value. destruct (m !! p); [by eauto|]. by cbn.
Qed.

Lemma lookup_store_other p q content m :
  p ≠ q → store E p content m !! q = m !! q.
Proof.
  intros. unfold store, torn.
  destruct (deny_write E p); destruct (torn_write E p); by simplify_map_eq.
Qed.

(** Both loop bodies are [transfer]s and never raise. *)
Lemma transfer_body now threshold level compressed src dst w :
  src ≠ dst →
  try_except
    (record_data ← read_data E src compressed;
     age ← lift (record_age now record_data);
     match age with
     | None => ret ()
     | Some days =>
         if age_reached days threshold then
           write_data E dst record_data (Some level);;
           os_remove E src
         else ret ()
     end)
    (λ _, ret ()) w
  = (Return (),
     set_files (transfer E now threshold level compressed src dst (files w)) w).
Proof.
  intros Hne. unfold try_except, transfer, due.
  unfold bind at 1. unfold M_bind. rewrite read_data_eq.
  set (v := read_value E src compressed (files w)).
  pose proof (due_read_present now threshold src compressed (files w)) as Hpres.
  fold v in Hpres. unfold due in Hpres.
  unfold bind at 1. unfold M_bind, lift.
  destruct (record_age now v) as [[days|]|e]; try by rewrite set_files_files.
  destruct (age_reached days threshold); [|by rewrite set_files_files].
  unfold bind, M_bind. rewrite write_data_eq.
  destruct (Hpres eq_refl) as [c Hc].
  unfold os_remove, unlink. cbn [files set_files].
  rewrite lookup_store_other by done. rewrite Hc.
  by destruct (deny_remove E src).
Qed.

Lemma hot_to_cool_eq now filename w :
  hot_to_cool E now filename w
  = (Return (), set_files (hot_step E now (files w) filename) w).
Proof.
  unfold hot_to_cool, hot_step.
  destruct (endswith filename ".json"); cbn [negb].
  - by apply transfer_body.
  - by rewrite set_files_files.
Qed.

Lemma cool_to_archive_eq now filename_gz w :
  cool_to_archive E now filename_gz w
  = (Return (), set_files (cool_step E now (files w) filename_gz) w).
Proof.
  unfold cool_to_archive, cool_step.
  destruct (endswith filename_gz ".json.gz"); cbn [negb].
  - by apply transfer_body.
  - by rewrite set_files_files.
Qed.

Lemma for_each_eq (step : gmap path string → string → gmap path string)
    (body : string → M unit) names :
  (∀ x w, body x w = (Return (), set_files (step (files w) x) w)) →
  ∀ w, for_each names body w = (Return (), set_files (foldl step (files w) names) w).
Proof.
  intros Hbody. induction names as [|x names IH]; intros w; cbn.
  - by rewrite set_files_files.
  - unfold bind, M_bind. rewrite Hbody, IH. done.
Qed.

Lemma manage_data_tiers_eq now w :
  manage_data_tiers E now w
  = (Return (), set_files (cool_scan E now (hot_scan E now (files w))) w).
Proof.
  unfold manage_data_tiers, listdir, cool_scan, hot_scan.
  unfold bind at 1. unfold M_bind.
  unfold bind at 1. unfold M_bind.
  rewrite (for_each_eq (hot_step E now)) by apply hot_to_cool_eq.
  unfold bind at 1. unfold M_bind. cbn [files set_files].
  rewrite (for_each_eq (cool_step E now)) by apply cool_to_archive_eq.
  done.
Qed.

End Equations.

(** ** Strings and paths *)

Lemma string_length_app s t :
  String.length (s +:+ t) = (String.length s + String.length t)%nat.
Proof.
  induction s as [|c s IH]; [done|].
  change (String c s +:+ t) with (String c (s +:+ t)). cbn. by rewrite IH.
Qed.

Lemma string_app_inj_r s1 s2 t : s1 +:+ t = s2 +:+ t → s1 = s2.
Proof.
  revert s2. induction s1 as [|c s1 IH]; intros [|c2 s2] Heq; try done.
  - apply (f_equal String.length) in Heq.
    rewrite !string_length_app in Heq. cbn in Heq. lia.
  - apply (f_equal String.length) in Heq.
    rewrite !string_length_app in Heq. cbn in Heq. lia.
  - change (String c (s1 +:+ t) = String c2 (s2 +:+ t)) in Heq.
    injection Heq as -> Heq. f_equal. by apply IH.
Qed.

Lemma string_app_ne s c t : s +:+ String c t ≠ s.
Proof.
  intros Heq. apply (f_equal String.length) in Heq.
  rewrite string_length_app in Heq. cbn in Heq. lia.
Qed.

Lemma tier_path_tier t record_id : (tier_path t record_id).1 = t.
Proof. by destruct t. Qed.

Lemma tier_path_Cool record_id :
  tier_path Cool record_id = (Cool, (record_id +:+ ".json") +:+ ".gz").
Proof. done. Qed.

Lemma tier_path_Archive record_id :
  tier_path Archive record_id = (Archive, (record_id +:+ ".json") +:+ ".gz").
Proof. done. Qed.

Lemma tier_path_Hot record_id : tier_path Hot record_id = (Hot, record_id +:+ ".json").
Proof. done. Qed.

(** ** Retrieval *)

Section Retrieval.
Context `{L : PyLib} (E : env).

Lemma retrieve_data_hot record_id high_priority w :
  in_tier (files w) Hot record_id →
  retrieve_data E record_id high_priority w
  = read_data E (tier_path Hot record_id) false w.
Proof.
  intros Hin. unfold retrieve_data, os_path_exists.
  unfold bind at 1. unfold M_bind. by rewrite bool_decide_true.
Qed.

Lemma retrieve_data_cool record_id high_priority w :
  ¬ in_tier (files w) Hot record_id →
  in_tier (files w) Cool record_id →
  retrieve_data E record_id high_priority w
  = read_data E (tier_path Cool record_id) true w.
Proof.
  intros Hhot Hin. unfold retrieve_data, os_path_exists.
  unfold bind at 1. unfold M_bind. rewrite bool_decide_false by done.
  unfold bind at 1. unfold M_bind. by rewrite bool_decide_true.
Qed.

Lemma retrieve_data_absent record_id high_priority w :
  ¬ in_tier (files w) Hot record_id →
  ¬ in_tier (files w) Cool record_id →
  ¬ in_tier (files w) Archive record_id →
  retrieve_data E record_id high_priority w = (Return JNull, w).
Proof.
  intros Hhot Hcool Harch. unfold retrieve_data, os_path_exists.
  unfold bind at 1. unfold M_bind. rewrite bool_decide_false by done.
  unfold bind at 1. unfold M_bind. rewrite bool_decide_false by done.
  unfold bind at 1. unfold M_bind. by rewrite bool_decide_false.
Qed.

Lemma retrieve_data_archive record_id high_priority w :
  ¬ in_tier (files w) Hot record_id →
  ¬ in_tier (files w) Cool record_id →
  in_tier (files w) Archive record_id →
  retrieve_data E record_id high_priority w
  = (Return (rehydrated E record_id (files w)).1,
     World (rehydrated E record_id (files w)).2
           (slept w + if high_priority then 5 else 15)).
Proof.
  intros Hhot Hcool [raw Hraw]. unfold retrieve_data, os_path_exists.
  unfold bind at 1. unfold M_bind. rewrite bool_decide_false by done.
  unfold bind at 1. unfold M_bind. rewrite bool_decide_false by done.
  unfold bind at 1. unfold M_bind. rewrite bool_decide_true by (by exists raw).
  unfold bind at 1. unfold M_bind. unfold time_sleep.
  set (w1 := World (files w) _).
  unfold rehydrated. rewrite Hraw.
  change (get_file_path Archive (record_id +:+ ".json") true)
    with (tier_path Archive record_id).
  unfold try_except, shutil_copyfile, open_read, open_write.
  unfold bind at 1. unfold M_bind.
  unfold bind at 1. unfold M_bind.
  cbn [files w1]. rewrite Hraw.
  destruct (deny_read E (tier_path Archive record_id)); [done|].
  destruct (deny_write E _).
  { unfold torn. by destruct (torn_write E _). }
  unfold bind at 1. unfold M_bind. rewrite read_data_eq. cbn [files set_files].
  set (m1 := <[_ := raw]> (files w)).
  unfold bind at 1. unfold M_bind. unfold os_remove. cbn [files set_files].
  unfold m1 at 1. rewrite lookup_insert_eq.
  destruct (deny_remove E _); [done|].
  destruct (truthy _); [|done].
  unfold bind at 1. unfold M_bind. rewrite write_data_eq. done.
Qed.

Lemma rehydrated_frame record_id m p :
  p.1 ≠ Rehydrated →
  (rehydrated E record_id m).2 !! p = m !! p.
Proof.
  intros Hp. unfold rehydrated.
  assert (∀ f, (Rehydrated, f) ≠ p) as Hne by (intros f <-; done).
  destruct (m !! tier_path Archive record_id) as [raw|]; [|done].
  destruct (deny_read E _); [done|].
  destruct (deny_write E _); cbn [snd].
  { unfold torn. destruct (torn_write E _); [|done]. by rewrite lookup_insert_ne. }
  destruct (deny_remove E _); cbn [snd].
  { by rewrite lookup_insert_ne. }
  destruct (truthy _); cbn [snd];
    rewrite ?lookup_store_other, lookup_delete_ne, lookup_insert_ne; done.
Qed.

Lemma rehydrated_value record_id m :
  (rehydrated E record_id m).1 = JNull
  ∨ (rehydrated E record_id m).1 = read_value E (tier_path Archive record_id) true m.
Proof.
  unfold rehydrated, read_value.
  destruct (m !! tier_path Archive record_id) as [raw|]; [|by left].
  destruct (deny_read E (tier_path Archive record_id)); cbn [fst]; [by left|].
  destruct (deny_write E _); cbn [fst]; [by left|].
  destruct (deny_remove E _); cbn [fst]; [by left|].
  rewrite lookup_insert_eq.
  destruct (deny_read E (Rehydrated, _)); cbn [truthy fst]; [by left|].
  destruct (truthy _); cbn [fst]; [by right|by left].
Qed.

(** When the archived copy can be read, and its temporary copy written,
    read and removed, the rehydration yields what the archived copy decodes
    to, [None] standing for an empty value. *)
Lemma rehydrated_delivers record_id m :
  is_Some (m !! tier_path Archive record_id) →
  deny_read E (tier_path Archive record_id) = false →
  deny_write E (Rehydrated, (record_id +:+ ".json") +:+ ".gz") = false →
  deny_read E (Rehydrated, (record_id +:+ ".json") +:+ ".gz") = false →
  deny_remove E (Rehydrated, (record_id +:+ ".json") +:+ ".gz") = false →
  (rehydrated E record_id m).1
  = let v := read_value E (tier_path Archive record_id) true m in
    if truthy v then v else JNull.
Proof.
  intros [raw Hraw] Hread Hcopy Hreadtmp Hremove.
  unfold rehydrated, read_value.
  rewrite Hraw, Hread, Hcopy, Hremove, lookup_insert_eq, Hreadtmp. cbn zeta.
  by destruct (truthy _).
Qed.


End Retrieval.

(** ** Eligibility *)

Lemma age_reached_hot days :
  age_reached days HOT_TIER_RETENTION_MONTHS = true ↔ 92 ≤ days.
Proof.
  unfold age_reached, age_in_months, Qle_bool, HOT_TIER_RETENTION_MONTHS. cbn.
  rewrite Z.leb_le. lia.
Qed.

Lemma age_reached_cool days :
  age_reached days COOL_TIER_RETENTION_MONTHS = true ↔ 366 ≤ days.
Proof.
  unfold age_reached, age_in_months, Qle_bool, COOL_TIER_RETENTION_MONTHS. cbn.
  rewrite Z.leb_le. lia.
Qed.

(** The exact quotient and the binary64 quotient decide alike, for every
    record issued up to a year after [now] or up to ten years before it. *)
Lemma age_reached_binary64_agrees days :
  -366 ≤ days ≤ 3660 →
  age_reached_binary64 days HOT_TIER_RETENTION_MONTHS
  = age_reached days HOT_TIER_RETENTION_MONTHS
  ∧ age_reached_binary64 days COOL_TIER_RETENTION_MONTHS
    = age_reached days COOL_TIER_RETENTION_MONTHS.
Proof.
  intros Hdays.
  assert (forallb
            (λ d, Bool.eqb (age_reached_binary64 d HOT_TIER_RETENTION_MONTHS)
                           (age_reached d HOT_TIER_RETENTION_MONTHS)
                  && Bool.eqb (age_reached_binary64 d COOL_TIER_RETENTION_MONTHS)
                              (age_reached d COOL_TIER_RETENTION_MONTHS))
            (day_range (-366) 4027) = true) as Hall
    by (vm_compute; reflexivity).
  rewrite forallb_forall in Hall.
  specialize (Hall days). rewrite andb_true_iff, !Bool.eqb_true_iff in Hall.
  apply Hall. unfold day_range. apply in_map_iff.
  exists (Z.to_nat (days + 366)). split; [lia|]. apply in_seq. lia.
Qed.

Lemma whole_days_ge elapsed n : n ≤ elapsed / us_per_day ↔ n * us_per_day ≤ elapsed.
Proof.
  assert (0 < us_per_day) as Hpos by done.
  pose proof (Z.mul_div_le elapsed us_per_day Hpos).
  split; intros Hle.
  - nia.
  - apply Z.div_le_lower_bound; lia.
Qed.

(** C3, as amended.  The age compared with a threshold is the whole number
    of days between [invoice_date] and [now] (the [days] field of the
    difference, fractions of a day dropped) divided by 30.44, and the
    comparison is inclusive.  A record of the Hot tier is therefore eligible
    exactly when at least 92 whole days have passed since it was issued, a
    record of the Cool tier exactly when at least 366 have; a second less
    than that and it is not eligible. *)
Theorem eligibility_counts_whole_days (now issued : Z) :
  let days := (now - issued) / us_per_day in
  timedelta_days now (Datetime issued None) = Return days
  ∧ (age_in_months days == inject_Z days / (3044 # 100))%Q
  ∧ (age_reached days HOT_TIER_RETENTION_MONTHS = true
     ↔ issued + 92 * us_per_day ≤ now)
  ∧ (age_reached days COOL_TIER_RETENTION_MONTHS = true
     ↔ issued + 366 * us_per_day ≤ now).
Proof.
  intros days. split; [done|]. split; [reflexivity|].
  rewrite age_reached_hot, age_reached_cool. unfold days.
  rewrite !whole_days_ge. lia.
Qed.

(** C3, as stated, fails: 91 days, 7 hours, 40 minutes and 48 seconds are
    exactly 3 months of 30.44 days, yet a record issued that long before
    [now] counts 91 whole days and stays in the Hot tier. *)
Lemma three_months_old_not_eligible :
  let issued := Ref.days_from_civil 2026 8 4 * us_per_day
                + ((4 * 60 + 19) * 60 + 12) * 1000000 in
  fromisoformat "2026-08-04T04:19:12" = Some (Datetime issued None)
  ∧ (spec_age_months (Fixture.now - issued) == 3)%Q
  ∧ timedelta_days Fixture.now (Datetime issued None) = Return 91
  ∧ age_reached 91 HOT_TIER_RETENTION_MONTHS = false
  ∧ due Fixture.now HOT_TIER_RETENTION_MONTHS
        (Fixture.record "2026-08-04T04:19:12") = false.
Proof. repeat split; vm_compute; reflexivity. Qed.

(** ** The codec *)

(** C4.  A record written by [write_data] is read back by [read_data]
    field for field, whether it is written plain or compressed at a level
    [zlib] accepts, provided the file can be written and read and the
    library's own codecs invert each other on the record. *)
Theorem write_then_read `{L : PyLib} (E : env) p (record : json)
    (level : option Z) w :
  deny_write E p = false →
  deny_read E p = false →
  json_loads (json_dumps record) = Some record →
  (∀ l, level = Some l →
        valid_level l = true
        ∧ gzip_decompress (gzip_compress l (json_dumps record))
          = Some (json_dumps record)) →
  let w' := (write_data E p record level w).2 in
  read_data E p (bool_decide (is_Some level)) w' = (Return record, w').
Proof.
  intros Hwrite Hread Hjson Hgzip w'. unfold w'.
  rewrite write_data_eq, read_data_eq. cbn [snd files set_files]. f_equal. f_equal.
  unfold read_value, store, payload. rewrite Hwrite, lookup_insert_eq, Hread.
  destruct level as [l|].
  - destruct (Hgzip l eq_refl) as [-> Hinv].
    rewrite bool_decide_true by eauto. by rewrite Hinv, Hjson.
  - rewrite bool_decide_false by (by intros [? ?]). by rewrite Hjson.
Qed.

Lemma write_then_read_witness :
  let w' := (write_data permissive Fixture.cool_file Fixture.aged
               (Some COOL_COMPRESSION_LEVEL) (World ∅ 0)).2 in
  read_data permissive Fixture.cool_file true w' = (Return Fixture.aged, w').
Proof.
  apply (write_then_read permissive Fixture.cool_file Fixture.aged
           (Some COOL_COMPRESSION_LEVEL) (World ∅ 0)).
  - reflexivity.
  - reflexivity.
  - vm_compute. reflexivity.
  - intros l [= <-]. split; vm_compute; reflexivity.
Defined.

(** ** Retrieval: order, absence, rehydration *)

(** C5.  [retrieve_data] looks in Hot, then Cool, then Archive, and answers
    from the first tier that has the record: a record in Hot is read from
    Hot whatever Cool and Archive hold, a record not in Hot but in Cool is
    read from Cool, and a record in Archive only is answered, if at all, with
    what its archived copy decodes to.  That last answer is given whenever
    the archived copy can be read and its temporary copy written, read and
    removed: it is then what the archived copy decodes to, [None] standing
    for an empty value as it does for a copy that does not decode. *)
Theorem retrieve_first_match `{L : PyLib} (E : env) record_id high_priority w :
  (in_tier (files w) Hot record_id →
   retrieve_data E record_id high_priority w
   = (Return (read_value E (tier_path Hot record_id) false (files w)), w))
  ∧ (¬ in_tier (files w) Hot record_id →
     in_tier (files w) Cool record_id →
     retrieve_data E record_id high_priority w
     = (Return (read_value E (tier_path Cool record_id) true (files w)), w))
  ∧ (¬ in_tier (files w) Hot record_id →
     ¬ in_tier (files w) Cool record_id →
     in_tier (files w) Archive record_id →
     ∃ v w', retrieve_data E record_id high_priority w = (Return v, w')
             ∧ (v = JNull
                ∨ v = read_value E (tier_path Archive record_id) true (files w)))
  ∧ (¬ in_tier (files w) Hot record_id →
     ¬ in_tier (files w) Cool record_id →
     in_tier (files w) Archive record_id →
     deny_read E (tier_path Archive record_id) = false →
     deny_write E (Rehydrated, (record_id +:+ ".json") +:+ ".gz") = false →
     deny_read E (Rehydrated, (record_id +:+ ".json") +:+ ".gz") = false →
     deny_remove E (Rehydrated, (record_id +:+ ".json") +:+ ".gz") = false →
     ∃ w', retrieve_data E record_id high_priority w
           = (Return
                (let v := read_value E (tier_path Archive record_id) true (files w) in
                 if truthy v then v else JNull),
              w')).
Proof.
  split; [|split; [|split]].
  - intros Hhot. by rewrite retrieve_data_hot, read_data_eq.
  - intros Hhot Hcool. by rewrite retrieve_data_cool, read_data_eq.
  - intros Hhot Hcool Harch. rewrite retrieve_data_archive by done.
    eexists _, _. split; [done|]. apply rehydrated_value.
  - intros Hhot Hcool Harch Hread Hcopy Hreadtmp Hremove.
    rewrite retrieve_data_archive by done.
    rewrite rehydrated_delivers by done. by eexists.
Qed.

(** A record in both Hot and Cool: the Hot copy is returned.  A record in
    Archive only: the archived record is returned. *)
Lemma retrieve_first_match_witness :
  let w := World {[ Fixture.hot_file := json_dumps Fixture.recent;
                    Fixture.cool_file :=
                      gzip_compress COOL_COMPRESSION_LEVEL (json_dumps Fixture.aged) ]} 0 in
  (in_tier (files w) Hot "BILL-00001"
   ∧ in_tier (files w) Cool "BILL-00001"
   ∧ retrieve_data permissive "BILL-00001" false w = (Return Fixture.recent, w))
  ∧ ∃ w', retrieve_data permissive "BILL-00001" false (Fixture.in_archive Fixture.old)
          = (Return Fixture.old, w').
Proof.
  intros w.
  assert (in_tier (files w) Hot "BILL-00001") as Hhot
    by (exists (json_dumps Fixture.recent); vm_compute; reflexivity).
  split; [split; [exact Hhot|split]|].
  - exists (gzip_compress COOL_COMPRESSION_LEVEL (json_dumps Fixture.aged)).
    vm_compute. reflexivity.
  - rewrite (proj1 (retrieve_first_match permissive "BILL-00001" false w) Hhot).
    vm_compute. reflexivity.
  - destruct (proj2 (proj2 (proj2
      (retrieve_first_match permissive "BILL-00001" false
         (Fixture.in_archive Fixture.old))))) as [w' Hw'].
    + intros [c Hc]. vm_compute in Hc. discriminate.
    + intros [c Hc]. vm_compute in Hc. discriminate.
    + eexists. vm_compute. reflexivity.
    + reflexivity.
    + reflexivity.
    + reflexivity.
    + reflexivity.
    + exists w'. rewrite Hw'. vm_compute. reflexivity.
Defined.




(** C8, as amended.  When a record found only in Archive is retrieved with
    success, the record returned is what the archived copy decodes to; Hot,
    Cool and Archive are left as they were, so the archived copy is not
    deleted; and the record is written, decompressed, under its identifier
    in the directory of rehydrated copies, replacing what was there, when
    that write succeeds.  When it fails, the retrieval succeeds all the
    same, and the entry is left as it was if its file could not be opened,
    and otherwise holds only the part of the record that was written. *)
Theorem rehydration_effect `{L : PyLib} (E : env) record_id high_priority w v w' :
  ¬ in_tier (files w) Hot record_id →
  ¬ in_tier (files w) Cool record_id →
  in_tier (files w) Archive record_id →
  retrieve_data E record_id high_priority w = (Return v, w') →
  v ≠ JNull →
  v = read_value E (tier_path Archive record_id) true (files w)
  ∧ (∀ p, p.1 ≠ Rehydrated → files w' !! p = files w !! p)
  ∧ files w' !! (Rehydrated, record_id +:+ ".json")
    = if deny_write E (Rehydrated, record_id +:+ ".json")
      then
        match torn_write E (Rehydrated, record_id +:+ ".json") with
        | None => files w !! (Rehydrated, record_id +:+ ".json")
        | Some n => Some (String.substring 0 n (json_dumps v))
        end
      else Some (json_dumps v).
Proof.
  intros Hhot Hcool Harch Hret Hv.
  rewrite retrieve_data_archive in Hret by done.
  injection Hret as Hval Hw. subst w'. cbn [files].
  split; [|split].
  - destruct (rehydrated_value E record_id (files w)) as [Hnull|Heq];
      congruence.
  - intros p Hp. by apply rehydrated_frame.
  - destruct Harch as [raw Hraw]. revert Hval. unfold rehydrated. rewrite Hraw.
    destruct (deny_read E _); cbn [fst snd]; [congruence|].
    destruct (deny_write E (Rehydrated, _ +:+ ".gz")); cbn [fst snd];
      [congruence|].
    destruct (deny_remove E _); cbn [fst snd]; [congruence|].
    destruct (truthy _); cbn [fst snd]; [|congruence].
    intros ->. unfold store, torn.
    destruct (deny_write E (Rehydrated, record_id +:+ ".json"));
      [destruct (torn_write E (Rehydrated, record_id +:+ ".json"))|].
    + by rewrite lookup_insert_eq.
    + rewrite lookup_delete_ne, lookup_insert_ne; [done| |].
      * intros [= Heq]. by apply string_app_ne in Heq.
      * intros [= Heq]. by apply string_app_ne in Heq.
    + by rewrite lookup_insert_eq.
Qed.

Lemma rehydration_effect_witness :
  let w := Fixture.in_archive Fixture.old in
  let w' := (retrieve_data permissive "BILL-00001" true w).2 in
  files w' !! Fixture.archive_file = files w !! Fixture.archive_file
  ∧ files w' !! Fixture.cache_file = Some (json_dumps Fixture.old).
Proof.
  intros w w'.
  assert (retrieve_data permissive "BILL-00001" true w = (Return Fixture.old, w'))
    as Hret by (vm_compute; reflexivity).
  destruct (rehydration_effect permissive "BILL-00001" true w Fixture.old w')
    as (_ & Hframe & Hcache).
  - intros [c Hc]. vm_compute in Hc. discriminate.
  - intros [c Hc]. vm_compute in Hc. discriminate.
  - eexists. vm_compute. reflexivity.
  - exact Hret.
  - discriminate.
  - split; [by apply Hframe|]. exact Hcache.
Defined.

(** C8, as stated, fails: when the entry of the record in the directory
    of rehydrated copies cannot be written, the retrieval still succeeds,
    and the entry does not hold the record.  When its file cannot be
    opened, the stale entry that was there stays; when the write fails
    after the file was opened, the entry holds the first bytes of the
    record and nothing of what it held. *)
Lemma retrieved_but_not_rehydrated :
  let w := Fixture.archived_stale_cache in
  let result := retrieve_data Fixture.cache_refused "BILL-00001" false w in
  let torn_result := retrieve_data Fixture.cache_torn "BILL-00001" false w in
  (result.1 = Return Fixture.old
   ∧ files result.2 !! Fixture.cache_file = Some (json_dumps Fixture.recent)
   ∧ files result.2 !! Fixture.cache_file ≠ Some (json_dumps Fixture.old)
   ∧ files result.2 = files w)
  ∧ (torn_result.1 = Return Fixture.old
     ∧ files torn_result.2 !! Fixture.cache_file
       = Some (String.substring 0 2 (json_dumps Fixture.old))
     ∧ files torn_result.2 !! Fixture.cache_file ≠ Some (json_dumps Fixture.old)
     ∧ files torn_result.2 !! Fixture.cache_file ≠ files w !! Fixture.cache_file).
Proof.
  repeat split; try (vm_compute; reflexivity); vm_compute; discriminate.
Qed.

(** C9.  [retrieve_data] returns, a record or [None], for every identifier,
    priority, state of the directories and refusal of the environment: no
    exception of a read, a copy, a removal, a decompression or a decoding
    leaves it. *)
Theorem retrieve_data_returns `{L : PyLib} (E : env) record_id high_priority w :
  ∃ v w', retrieve_data E record_id high_priority w = (Return v, w').
Proof.
  destruct (decide (in_tier (files w) Hot record_id)) as [Hhot|Hhot].
  { rewrite retrieve_data_hot, read_data_eq by done. by eexists _, _. }
  destruct (decide (in_tier (files w) Cool record_id)) as [Hcool|Hcool].
  { rewrite retrieve_data_cool, read_data_eq by done. by eexists _, _. }
  destruct (decide (in_tier (files w) Archive record_id)) as [Harch|Harch].
  { rewrite retrieve_data_archive by done. by eexists _, _. }
  rewrite retrieve_data_absent by done. by eexists _, _.
Qed.

(** ** A pass that cannot write *)

(** C1 fails on the script: [write_data] swallows the error of a write, so
    [os.remove] runs all the same.  A record of the Hot tier that is 100 days
    old, with a Cool directory that cannot be written to, is in no tier after
    the pass. *)
Theorem failed_write_loses_record :
  let w := Fixture.in_hot Fixture.aged in
  let w' := (manage_data_tiers Fixture.cool_refused Fixture.now w).2 in
  files w !! Fixture.hot_file = Some (json_dumps Fixture.aged)
  ∧ deny_write Fixture.cool_refused Fixture.cool_file = true
  ∧ files w' !! Fixture.hot_file = None
  ∧ files w' !! Fixture.cool_file = None
  ∧ files w' = ∅.
Proof. repeat split; vm_compute; reflexivity. Qed.

(** ** One transfer *)

Section Transfer.
Context `{L : PyLib} (E : env).
Implicit Types (p src dst : path) (compressed : bool) (m : gmap path string).
Implicit Types (now threshold level : Z) (filename filename_gz f name c : string).

Lemma read_value_ext p compressed (m m' : gmap path string) :
  m !! p = m' !! p → read_value E p compressed m = read_value E p compressed m'.
Proof. intros Heq. unfold read_value. by rewrite Heq. Qed.

Lemma read_value_absent p compressed (m : gmap path string) :
  m !! p = None → read_value E p compressed m = JNull.
Proof. intros Heq. unfold read_value. by rewrite Heq. Qed.


Lemma due_absent now threshold p compressed (m : gmap path string) :
  m !! p = None → due now threshold (read_value E p compressed m) = false.
Proof. intros Heq. by rewrite read_value_absent. Qed.


(** What a transfer leaves at a path. *)
Lemma lookup_transfer now threshold level compressed src dst m p :
  src ≠ dst →
  transfer E now threshold level compressed src dst m !! p
  = if due now threshold (read_value E src compressed m) then
      if decide (p = src) then
        if deny_remove E src then m !! src else None
      else if decide (p = dst) then
        if deny_write E dst then
          match torn_write E dst with
          | None => m !! dst
          | Some n =>
              Some (String.substring 0 n
                      (payload (read_value E src compressed m) (Some level)))
          end
        else Some (payload (read_value E src compressed m) (Some level))
      else m !! p
    else m !! p.
Proof.
  intros Hne. unfold transfer, unlink, store, torn.
  destruct (due _ _ _); [|done].
  destruct (decide (p = src)) as [->|Hsrc].
  - destruct (deny_remove E src), (deny_write E dst), (torn_write E dst);
      by simplify_map_eq.
  - destruct (decide (p = dst)) as [->|Hdst];
      destruct (deny_remove E src), (deny_write E dst), (torn_write E dst);
      by simplify_map_eq.
Qed.

Lemma lookup_transfer_other now threshold level compressed src dst m p :
  src ≠ dst → p ≠ src → p ≠ dst →
  transfer E now threshold level compressed src dst m !! p = m !! p.
Proof.
  intros. rewrite lookup_transfer by done.
  destruct (due _ _ _); [|done]. by rewrite !decide_False.
Qed.

(** A transfer leaves its source as it was or removes it. *)
Lemma lookup_transfer_src_dir now threshold level compressed src dst m p c :
  src ≠ dst → p ≠ dst →
  transfer E now threshold level compressed src dst m !! p = Some c →
  m !! p = Some c.
Proof.
  intros Hne Hdst. rewrite lookup_transfer by done.
  destruct (due _ _ _); [|done].
  destruct (decide (p = src)) as [->|]; [by destruct (deny_remove E src)|].
  by rewrite decide_False.
Qed.

Lemma transfer_idle now threshold level compressed src dst m :
  due now threshold (read_value E src compressed m) = false →
  transfer E now threshold level compressed src dst m = m.
Proof. intros Hdue. unfold transfer. by rewrite Hdue. Qed.

(** Once the source can be removed, a transfer is not due a second time. *)
Lemma transfer_settles now threshold level compressed src dst m :
  src ≠ dst → deny_remove E src = false →
  due now threshold
      (read_value E src compressed
         (transfer E now threshold level compressed src dst m)) = false.
Proof.
  intros Hne Hrm.
  destruct (due now threshold (read_value E src compressed m)) eqn:Hdue.
  - apply due_absent. rewrite lookup_transfer, Hdue, decide_True, Hrm; done.
  - by rewrite transfer_idle.
Qed.



Lemma hot_step_idle now m filename :
  moves_from_hot E now m filename = false → hot_step E now m filename = m.
Proof.
  unfold moves_from_hot, hot_step.
  destruct (endswith filename ".json"); [|done]. cbn [andb].
  apply transfer_idle.
Qed.

Lemma cool_step_idle now m filename_gz :
  moves_from_cool E now m filename_gz = false →
  cool_step E now m filename_gz = m.
Proof.
  unfold moves_from_cool, cool_step.
  destruct (endswith filename_gz ".json.gz"); [|done]. cbn [andb].
  apply transfer_idle.
Qed.

(** A step of the loop over Cool changes nothing in Hot, and in Cool it
    can only remove. *)
Lemma lookup_cool_step_hot now m filename_gz f :
  cool_step E now m filename_gz !! (Hot, f) = m !! (Hot, f).
Proof.
  unfold cool_step. destruct (endswith filename_gz ".json.gz"); [|done].
  by apply lookup_transfer_other.
Qed.

Lemma lookup_cool_step_cool now m filename_gz f c :
  cool_step E now m filename_gz !! (Cool, f) = Some c → m !! (Cool, f) = Some c.
Proof.
  unfold cool_step. destruct (endswith filename_gz ".json.gz"); [|done].
  by apply lookup_transfer_src_dir.
Qed.

End Transfer.

(** ** Folding a step over a listing *)

Section Fold.
Context {S A : Type} (step : S → A → S).

Lemma foldl_invariant (P : S → Prop) names :
  (∀ s x, P s → P (step s x)) → ∀ s, P s → P (foldl step s names).
Proof.
  intros Hstep. induction names as [|x names IH]; intros s Hs; cbn; [done|].
  by apply IH, Hstep.
Qed.

(** [P] holds until the step at [a] establishes [Q], which then stays. *)
Lemma foldl_reaches (P Q : S → Prop) (a : A) names :
  (∀ s x, Q s → Q (step s x)) →
  (∀ s x, P s → P (step s x) ∨ Q (step s x)) →
  (∀ s, P s → Q (step s a)) →
  a ∈ names → ∀ s, P s → Q (foldl step s names).
Proof.
  intros HQ HP Ha. induction names as [|x names IH]; intros Hin s Hs.
  { by apply elem_of_nil in Hin. }
  cbn. apply elem_of_cons in Hin as [<-|Hin].
  - apply foldl_invariant; [done|]. by apply Ha.
  - destruct (HP s x Hs) as [HPs|HQs].
    + by apply IH.
    + by apply foldl_invariant.
Qed.

(** Steps that each settle their own item, and unsettle no other, leave
    every item of the listing settled. *)
Lemma foldl_settles (active : S → A → Prop) names :
  (∀ s x, ¬ active (step s x) x) →
  (∀ s x y, ¬ active s y → ¬ active (step s x) y) →
  ∀ s y, y ∈ names ∨ ¬ active s y → ¬ active (foldl step s names) y.
Proof.
  intros Hown Hother. induction names as [|x names IH]; intros s y Hy; cbn.
  - destruct Hy as [Hin|]; [|done]. by apply elem_of_nil in Hin.
  - apply IH. destruct Hy as [[->|Hin]%elem_of_cons|Hy]; auto.
Qed.

Lemma foldl_idle names s :
  (∀ x, x ∈ names → step s x = s) → foldl step s names = s.
Proof.
  induction names as [|x names IH]; intros Hidle; cbn; [done|].
  rewrite Hidle by (by left). apply IH. intros y Hy. apply Hidle. by right.
Qed.

End Fold.

(** ** A pass over the tiers *)

Section Pass.
Context `{L : PyLib} (E : env).
Implicit Types (p src dst : path) (compressed : bool) (m : gmap path string).
Implicit Types (now threshold level : Z) (filename filename_gz f name c : string).

Lemma lookup_transfer_src_cases now threshold level compressed src dst m p :
  src ≠ dst → p ≠ dst →
  transfer E now threshold level compressed src dst m !! p = m !! p
  ∨ transfer E now threshold level compressed src dst m !! p = None.
Proof.
  intros Hne Hdst. rewrite lookup_transfer by done.
  destruct (due _ _ _); [|by left].
  destruct (decide (p = src)) as [->|]; [destruct (deny_remove E src); auto|].
  rewrite decide_False by done. by left.
Qed.

Lemma due_after_transfer now threshold level compressed src dst m
    now' threshold' compressed' p :
  src ≠ dst → p ≠ dst →
  due now' threshold' (read_value E p compressed' m) = false →
  due now' threshold'
      (read_value E p compressed'
         (transfer E now threshold level compressed src dst m)) = false.
Proof.
  intros Hne Hdst Hdue.
  destruct (lookup_transfer_src_cases now threshold level compressed src dst m p)
    as [Heq|Hnone]; [done..| |].
  - by rewrite (read_value_ext E p compressed' _ m).
  - by apply due_absent.
Qed.

(** *** No identifier in two tiers *)

Lemma transfer_at_most_one now threshold level compressed src dst m :
  src ≠ dst →
  deny_remove E src = false →
  (∀ record_id t, tier_path t record_id = dst →
                  ∃ t', lifecycle_tier t' ∧ tier_path t' record_id = src) →
  at_most_one_tier m →
  at_most_one_tier (transfer E now threshold level compressed src dst m).
Proof.
  intros Hne Hrm Hlink Hm.
  destruct (due now threshold (read_value E src compressed m)) eqn:Hdue;
    [|by rewrite transfer_idle].
  destruct (due_read_present E now threshold src compressed m Hdue) as [raw Hraw].
  intros record_id t1 t2 Ht1 Ht2 [c1 H1] [c2 H2].
  rewrite lookup_transfer, Hdue, Hrm in H1, H2 by done.
  destruct (decide (tier_path t1 record_id = src)) as [|Hs1]; [done|].
  destruct (decide (tier_path t2 record_id = src)) as [|Hs2]; [done|].
  destruct (decide (tier_path t1 record_id = dst)) as [Hd1|Hd1],
           (decide (tier_path t2 record_id = dst)) as [Hd2|Hd2].
  - rewrite <- Hd2 in Hd1. apply (f_equal fst) in Hd1.
    by rewrite !tier_path_tier in Hd1.
  - destruct (Hlink record_id t1 Hd1) as (t' & Ht' & Hsrc).
    assert (t' = t2) as ->; [|done].
    apply (Hm record_id); [done..| |by exists c2].
    exists raw. by rewrite Hsrc.
  - destruct (Hlink record_id t2 Hd2) as (t' & Ht' & Hsrc).
    assert (t' = t1) as ->; [|done].
    apply (Hm record_id); [done..| |by exists c1].
    exists raw. by rewrite Hsrc.
  - apply (Hm record_id); [done..|by exists c1|by exists c2].
Qed.

Lemma hot_step_at_most_one now m filename :
  deny_remove E (Hot, filename) = false →
  at_most_one_tier m → at_most_one_tier (hot_step E now m filename).
Proof.
  intros Hrm Hm. unfold hot_step. destruct (endswith filename ".json"); [|done].
  apply transfer_at_most_one; [done..| |done].
  intros record_id t Heq. destruct t; try discriminate.
  rewrite tier_path_Cool in Heq. injection Heq as Heq.
  apply string_app_inj_r in Heq. exists Hot. by rewrite tier_path_Hot, Heq.
Qed.

Lemma cool_step_at_most_one now m filename_gz :
  (∀ f, deny_remove E (Cool, f) = false) →
  at_most_one_tier m → at_most_one_tier (cool_step E now m filename_gz).
Proof.
  intros Hrm Hm. unfold cool_step.
  destruct (endswith filename_gz ".json.gz"); [|done].
  apply transfer_at_most_one; [done..| |done].
  intros record_id t Heq. destruct t; try discriminate.
  rewrite tier_path_Archive in Heq. injection Heq as Heq.
  exists Cool. by rewrite tier_path_Cool, Heq.
Qed.

(** *** A second pass *)

Lemma hot_step_settles now m filename :
  deny_remove E (Hot, filename) = false →
  moves_from_hot E now (hot_step E now m filename) filename = false.
Proof.
  intros Hrm. unfold moves_from_hot, hot_step.
  destruct (endswith filename ".json"); [|done]. cbn [andb].
  by apply transfer_settles.
Qed.

Lemma hot_step_keeps_settled now m filename f :
  moves_from_hot E now m f = false →
  moves_from_hot E now (hot_step E now m filename) f = false.
Proof.
  unfold moves_from_hot, hot_step.
  destruct (endswith f ".json"); [|done]. cbn [andb].
  destruct (endswith filename ".json"); [|done].
  by apply due_after_transfer.
Qed.

Lemma cool_step_settles now m filename_gz :
  (∀ f, deny_remove E (Cool, f) = false) →
  moves_from_cool E now (cool_step E now m filename_gz) filename_gz = false.
Proof.
  intros Hrm. unfold moves_from_cool, cool_step.
  destruct (endswith filename_gz ".json.gz"); [|done]. cbn [andb].
  by apply transfer_settles.
Qed.

Lemma cool_step_keeps_settled now m filename_gz name :
  moves_from_cool E now m name = false →
  moves_from_cool E now (cool_step E now m filename_gz) name = false.
Proof.
  unfold moves_from_cool, cool_step.
  destruct (endswith name ".json.gz"); [|done]. cbn [andb].
  destruct (endswith filename_gz ".json.gz"); [|done].
  by apply due_after_transfer.
Qed.

Lemma moves_from_hot_absent now m f :
  m !! (Hot, f) = None → moves_from_hot E now m f = false.
Proof.
  intros Hnone. unfold moves_from_hot. rewrite due_absent by done.
  apply andb_false_r.
Qed.

(** After the loop over Hot, no file of Hot is due. *)
Lemma hot_scan_settles now m f :
  listdir_lists →
  (∀ f, deny_remove E (Hot, f) = false) →
  moves_from_hot E now (hot_scan E now m) f = false.
Proof.
  intros Hlist Hrm. apply not_true_is_false. unfold hot_scan.
  apply (foldl_settles (hot_step E now)
           (λ m f, moves_from_hot E now m f = true)).
  - intros s x. by rewrite hot_step_settles.
  - intros s x y Hy%not_true_is_false. by rewrite hot_step_keeps_settled.
  - destruct (m !! (Hot, f)) as [c|] eqn:Hf.
    + left. apply Hlist. by exists c.
    + right. by rewrite moves_from_hot_absent.
Qed.

Lemma cool_scan_settles now m name :
  (∀ f, deny_remove E (Cool, f) = false) →
  name ∈ os_listdir Cool m →
  moves_from_cool E now (cool_scan E now m) name = false.
Proof.
  intros Hrm Hin. apply not_true_is_false. unfold cool_scan.
  apply (foldl_settles (cool_step E now)
           (λ m name, moves_from_cool E now m name = true)).
  - intros s x. by rewrite cool_step_settles.
  - intros s x y Hy%not_true_is_false. by rewrite cool_step_keeps_settled.
  - by left.
Qed.

Lemma lookup_cool_scan_hot now m f :
  cool_scan E now m !! (Hot, f) = m !! (Hot, f).
Proof.
  unfold cool_scan.
  apply (foldl_invariant (cool_step E now) (λ s, s !! (Hot, f) = m !! (Hot, f)));
    [|done].
  intros s x Hs. by rewrite lookup_cool_step_hot.
Qed.

Lemma lookup_cool_scan_cool now m f c :
  cool_scan E now m !! (Cool, f) = Some c → m !! (Cool, f) = Some c.
Proof.
  unfold cool_scan.
  apply (foldl_invariant (cool_step E now)
           (λ s, s !! (Cool, f) = Some c → m !! (Cool, f) = Some c)); [|done].
  intros s x Hs Hc. by apply Hs, (lookup_cool_step_cool E now s x).
Qed.

(** The files a pass leaves are left as they are by a second pass. *)
Lemma pass_settled now m :
  listdir_lists →
  (∀ f, deny_remove E (Hot, f) = false) →
  (∀ f, deny_remove E (Cool, f) = false) →
  let m' := cool_scan E now (hot_scan E now m) in
  (∀ f, moves_from_hot E now m' f = false)
  ∧ (∀ name, name ∈ os_listdir Cool m' → moves_from_cool E now m' name = false).
Proof.
  intros Hlist Hhot Hcool m'. split.
  - intros f. unfold moves_from_hot.
    rewrite (read_value_ext E (Hot, f) false m' (hot_scan E now m))
      by apply lookup_cool_scan_hot.
    by apply hot_scan_settles.
  - intros name Hin. apply cool_scan_settles; [done|].
    apply Hlist in Hin as [c Hc]. apply Hlist. exists c.
    by apply (lookup_cool_scan_cool now).
Qed.

Lemma settled_pass_idle now m :
  (∀ f, moves_from_hot E now m f = false) →
  (∀ name, name ∈ os_listdir Cool m → moves_from_cool E now m name = false) →
  cool_scan E now (hot_scan E now m) = m.
Proof.
  intros Hhot Hcool.
  assert (hot_scan E now m = m) as ->.
  { apply foldl_idle. intros f _. by apply hot_step_idle. }
  apply foldl_idle. intros name Hin. by apply cool_step_idle, Hcool.
Qed.

End Pass.

(** ** From Hot to Archive in one pass *)

Lemma string_app_assoc (s t u : string) : (s +:+ t) +:+ u = s +:+ (t +:+ u).
Proof.
  induction s as [|c s IH]; [done|].
  change (String c ((s +:+ t) +:+ u) = String c (s +:+ (t +:+ u))). by rewrite IH.
Qed.

Lemma endswith_app (s t : string) : endswith (s +:+ t) t = true.
Proof.
  induction s as [|c s IH].
  - change ("" +:+ t) with t. destruct t; cbn; [done|].
    by rewrite Ascii.eqb_refl, String.eqb_refl.
  - change (String c s +:+ t) with (String c (s +:+ t)). cbn [endswith].
    rewrite IH. apply orb_true_r.
Qed.

Lemma Ref_listdir_ok : listdir_lists.
Proof.
  intros t m f. cbn. unfold Ref.listdir. rewrite list_elem_of_omap. split.
  - intros [[[t' f'] c] [Hin Hsome]]. cbn in Hsome.
    destruct (decide (t' = t)) as [->|]; [|done].
    injection Hsome as ->. apply elem_of_map_to_list in Hin. by exists c.
  - intros [c Hc]. exists ((t, f), c). split.
    + by apply elem_of_map_to_list.
    + cbn. by rewrite decide_True.
Qed.

Section Through.
Context `{L : PyLib} (E : env).
Implicit Types (p src dst : path) (compressed : bool) (m : gmap path string).
Implicit Types (now threshold level : Z) (filename filename_gz f name c : string).

(** A transfer that is due and not refused moves the record. *)
Lemma transfer_moves now threshold level compressed src dst m :
  src ≠ dst →
  due now threshold (read_value E src compressed m) = true →
  deny_write E dst = false →
  deny_remove E src = false →
  let m' := transfer E now threshold level compressed src dst m in
  m' !! src = None
  ∧ m' !! dst = Some (payload (read_value E src compressed m) (Some level)).
Proof.
  intros Hne Hdue Hwr Hrm m'. unfold m'. rewrite !lookup_transfer, Hdue by done.
  rewrite decide_True, Hrm by done. split; [done|].
  rewrite decide_False, decide_True, Hwr; done.
Qed.

(** A transfer whose write fails removes the record all the same:
    [write_data] has caught the error.  What is left at the destination is
    what was there, or the part of the record that was written. *)
Lemma transfer_refused_write now threshold level compressed src dst m :
  src ≠ dst →
  due now threshold (read_value E src compressed m) = true →
  deny_write E dst = true →
  deny_remove E src = false →
  let m' := transfer E now threshold level compressed src dst m in
  m' !! src = None
  ∧ m' !! dst
    = match torn_write E dst with
      | None => m !! dst
      | Some n =>
          Some (String.substring 0 n
                  (payload (read_value E src compressed m) (Some level)))
      end.
Proof.
  intros Hne Hdue Hwr Hrm m'. unfold m'. rewrite !lookup_transfer, Hdue by done.
  rewrite decide_True, Hrm by done. split; [done|].
  rewrite decide_False, decide_True, Hwr; done.
Qed.

Lemma hot_scan_moves now m filename record :
  listdir_lists →
  endswith filename ".json" = true →
  read_value E (Hot, filename) false m = record →
  due now HOT_TIER_RETENTION_MONTHS record = true →
  deny_write E (Cool, filename +:+ ".gz") = false →
  deny_remove E (Hot, filename) = false →
  hot_scan E now m !! (Hot, filename) = None
  ∧ hot_scan E now m !! (Cool, filename +:+ ".gz")
    = Some (gzip_compress COOL_COMPRESSION_LEVEL (json_dumps record)).
Proof.
  intros Hlist Hjson Hread Hdue Hwr Hrm. unfold hot_scan.
  set (Q := λ s : gmap path string,
         s !! (Hot, filename) = None
         ∧ s !! (Cool, filename +:+ ".gz")
           = Some (gzip_compress COOL_COMPRESSION_LEVEL (json_dumps record))).
  assert (∀ s, s !! (Hot, filename) = m !! (Hot, filename) →
               Q (hot_step E now s filename)) as Hfire.
  { intros s Hs. unfold hot_step. rewrite Hjson.
    assert (read_value E (Hot, filename) false s = record) as Hrec
      by (by rewrite (read_value_ext E _ _ s m)).
    pose proof (transfer_moves now HOT_TIER_RETENTION_MONTHS
                  COOL_COMPRESSION_LEVEL false (Hot, filename)
                  (Cool, filename +:+ ".gz") s) as Hmove.
    rewrite Hrec in Hmove. by apply Hmove. }
  apply (foldl_reaches (hot_step E now)
           (λ s, s !! (Hot, filename) = m !! (Hot, filename)) Q filename).
  - intros s x [Hhot Hcool]. destruct (decide (x = filename)) as [->|Hx].
    + rewrite hot_step_idle; [done|]. by apply moves_from_hot_absent.
    + unfold Q, hot_step. destruct (endswith x ".json"); [|done].
      rewrite !lookup_transfer_other; try done; try congruence.
      intros [= Heq]. by apply string_app_inj_r in Heq.
  - intros s x Hs. destruct (decide (x = filename)) as [->|Hx].
    + right. by apply Hfire.
    + left. unfold hot_step. destruct (endswith x ".json"); [|done].
      rewrite lookup_transfer_other; try done; congruence.
  - done.
  - apply Hlist. apply (due_read_present E now HOT_TIER_RETENTION_MONTHS _ false).
    by rewrite Hread.
  - done.
Qed.

Lemma cool_scan_moves now m filename record :
  listdir_lists →
  endswith (filename +:+ ".gz") ".json.gz" = true →
  replace_gz (filename +:+ ".gz") = filename →
  read_value E (Cool, filename +:+ ".gz") true m = record →
  due now COOL_TIER_RETENTION_MONTHS record = true →
  deny_write E (Archive, filename +:+ ".gz") = false →
  deny_remove E (Cool, filename +:+ ".gz") = false →
  cool_scan E now m !! (Cool, filename +:+ ".gz") = None
  ∧ cool_scan E now m !! (Archive, filename +:+ ".gz")
    = Some (gzip_compress ARCHIVE_COMPRESSION_LEVEL (json_dumps record)).
Proof.
  intros Hlist Hgz Hname Hread Hdue Hwr Hrm. unfold cool_scan.
  set (cool := (Cool, filename +:+ ".gz")).
  set (Q := λ s : gmap path string,
         s !! cool = None
         ∧ s !! (Archive, filename +:+ ".gz")
           = Some (gzip_compress ARCHIVE_COMPRESSION_LEVEL (json_dumps record))).
  assert (∀ s x, s !! cool = m !! cool →
                 endswith x ".json.gz" = true →
                 replace_gz x = filename →
                 Q (cool_step E now s x)) as Hfire.
  { intros s x Hs Hx Hrep. unfold cool_step. rewrite Hx, Hrep.
    assert (read_value E cool true s = record) as Hrec
      by (by rewrite (read_value_ext E _ _ s m)).
    pose proof (transfer_moves now COOL_TIER_RETENTION_MONTHS
                  ARCHIVE_COMPRESSION_LEVEL true cool
                  (Archive, filename +:+ ".gz") s) as Hmove.
    fold cool. rewrite Hrec in Hmove. by apply Hmove. }
  apply (foldl_reaches (cool_step E now) (λ s, s !! cool = m !! cool) Q
           (filename +:+ ".gz")).
  - intros s x [Hcool Harch].
    destruct (decide (replace_gz x = filename)) as [Hrep|Hrep].
    + rewrite cool_step_idle; [done|]. unfold moves_from_cool.
      rewrite Hrep. fold cool. rewrite due_absent by done. apply andb_false_r.
    + unfold Q, cool_step. destruct (endswith x ".json.gz"); [|done].
      assert (replace_gz x +:+ ".gz" ≠ filename +:+ ".gz") as Hne
        by (by intros Heq%string_app_inj_r).
      unfold cool. rewrite !lookup_transfer_other; try done; congruence.
  - intros s x Hs.
    destruct (endswith x ".json.gz") eqn:Hx;
      [|left; unfold cool_step; by rewrite Hx].
    destruct (decide (replace_gz x = filename)) as [Hrep|Hrep].
    + right. by apply Hfire.
    + left. unfold cool_step. rewrite Hx.
      assert (replace_gz x +:+ ".gz" ≠ filename +:+ ".gz") as Hne
        by (by intros Heq%string_app_inj_r).
      unfold cool. rewrite lookup_transfer_other; try done; congruence.
  - intros s Hs. by apply Hfire.
  - apply Hlist. apply (due_read_present E now COOL_TIER_RETENTION_MONTHS _ true).
    by rewrite Hread.
  - done.
Qed.

End Through.

(** ** The pass *)

(** C2, as amended.  A pass in which no removal from Hot or Cool is refused
    keeps the invariant: if no identifier is in two of Hot, Cool and Archive
    before the pass, none is after it. *)
Theorem pass_keeps_at_most_one_tier `{L : PyLib} (E : env) (now : Z) (w : world) :
  (∀ f, deny_remove E (Hot, f) = false) →
  (∀ f, deny_remove E (Cool, f) = false) →
  at_most_one_tier (files w) →
  at_most_one_tier (files (manage_data_tiers E now w).2).
Proof.
  intros Hhot Hcool Hw. rewrite manage_data_tiers_eq. cbn [snd files set_files].
  unfold cool_scan, hot_scan.
  apply (foldl_invariant (cool_step E now) at_most_one_tier).
  { intros s x. by apply cool_step_at_most_one. }
  apply (foldl_invariant (hot_step E now) at_most_one_tier); [|done].
  intros s x. by apply hot_step_at_most_one.
Qed.

Lemma pass_keeps_at_most_one_tier_witness :
  at_most_one_tier
    (files (manage_data_tiers permissive Fixture.now (Fixture.in_hot Fixture.aged)).2).
Proof.
  apply (pass_keeps_at_most_one_tier permissive Fixture.now
           (Fixture.in_hot Fixture.aged)).
  - reflexivity.
  - reflexivity.
  - intros record_id t1 t2 _ _ [c1 H1] [c2 H2].
    unfold Fixture.in_hot in H1, H2. cbn [files] in H1, H2.
    apply lookup_singleton_Some in H1 as [H1 _].
    apply lookup_singleton_Some in H2 as [H2 _].
    apply (f_equal fst) in H1, H2. rewrite tier_path_tier in H1, H2.
    congruence.
Defined.

(** C2, as stated, fails: a pass does not repair directories in which an
    identifier is in two tiers, and such directories arise without any
    failure.  A record 400 days old is written to Hot, as [ingest_data] does,
    and a pass archives it; a record 10 days old is then written to Hot under
    the same identifier ([ingest_data] numbers its records from 1 each
    time); after the next pass the identifier is in Hot and in Archive. *)
Lemma pass_leaves_duplicate :
  let w1 := (write_data permissive Fixture.hot_file Fixture.old None (World ∅ 0)).2 in
  let w2 := (manage_data_tiers permissive Fixture.now w1).2 in
  let w3 := (write_data permissive Fixture.hot_file Fixture.recent None w2).2 in
  let w4 := (manage_data_tiers permissive Fixture.now w3).2 in
  files w2 = files (Fixture.in_archive Fixture.old)
  ∧ in_tier (files w4) Hot "BILL-00001"
  ∧ in_tier (files w4) Archive "BILL-00001"
  ∧ ¬ at_most_one_tier (files w4).
Proof.
  intros w1 w2 w3 w4.
  assert (in_tier (files w4) Hot "BILL-00001") as Hhot
    by (eexists; vm_compute; reflexivity).
  assert (in_tier (files w4) Archive "BILL-00001") as Harch
    by (eexists; vm_compute; reflexivity).
  split; [vm_compute; reflexivity|]. split; [done|]. split; [done|].
  intros Hone.
  assert (Hot = Archive) as Heq; [|discriminate Heq].
  by apply (Hone "BILL-00001").
Qed.

(** C7.  A second pass at the same evaluation time, with nothing ingested in
    between, moves no record and leaves every directory as the first pass
    left it, provided no removal from Hot or Cool is refused. *)
Theorem second_pass_moves_nothing `{L : PyLib} (E : env) (now : Z) (w : world) :
  listdir_lists →
  (∀ f, deny_remove E (Hot, f) = false) →
  (∀ f, deny_remove E (Cool, f) = false) →
  let w1 := (manage_data_tiers E now w).2 in
  manage_data_tiers E now w1 = (Return (), w1)
  ∧ (∀ f, moves_from_hot E now (files w1) f = false)
  ∧ (∀ name, name ∈ os_listdir Cool (files w1) →
             moves_from_cool E now (files w1) name = false).
Proof.
  intros Hlist Hhot Hcool w1.
  destruct (pass_settled E now (files w) Hlist Hhot Hcool) as [Hsh Hsc].
  assert (files w1 = cool_scan E now (hot_scan E now (files w))) as Hfiles
    by (unfold w1; by rewrite manage_data_tiers_eq).
  rewrite Hfiles. split; [|done].
  rewrite manage_data_tiers_eq, Hfiles, settled_pass_idle by done.
  by rewrite <- Hfiles, set_files_files.
Qed.

Lemma second_pass_moves_nothing_witness :
  let w1 := (manage_data_tiers permissive Fixture.now Fixture.mixed).2 in
  manage_data_tiers permissive Fixture.now w1 = (Return (), w1).
Proof.
  apply (second_pass_moves_nothing permissive Fixture.now Fixture.mixed).
  - apply Ref_listdir_ok.
  - reflexivity.
  - reflexivity.
Defined.




(** * Further properties of the script *)

(** ** What a pass leaves alone *)

Section PassFrame.
Context `{L : PyLib} (E : env).
Implicit Types (p src dst : path) (compressed : bool) (m : gmap path string).
Implicit Types (now threshold level : Z) (filename filename_gz f name c raw : string).

Lemma lookup_transfer_dst_some now threshold level compressed src dst m :
  src ≠ dst →
  is_Some (m !! dst) →
  is_Some (transfer E now threshold level compressed src dst m !! dst).
Proof.
  intros Hne Hsome. rewrite lookup_transfer by done.
  destruct (due _ _ _); [|done].
  rewrite decide_False, decide_True by done.
  destruct (deny_write E dst); [|done]. by destruct (torn_write E dst).
Qed.

Lemma hot_step_frame now m filename p :
  p.1 ≠ Hot → p.1 ≠ Cool → hot_step E now m filename !! p = m !! p.
Proof.
  intros Hhot Hcool. unfold hot_step. destruct (endswith filename ".json"); [|done].
  apply lookup_transfer_other; [done|by intros ->..].
Qed.

Lemma cool_step_frame now m filename_gz p :
  p.1 ≠ Cool → p.1 ≠ Archive → cool_step E now m filename_gz !! p = m !! p.
Proof.
  intros Hcool Harch. unfold cool_step.
  destruct (endswith filename_gz ".json.gz"); [|done].
  apply lookup_transfer_other; [done|by intros ->..].
Qed.

Lemma hot_step_hot_shrinks now m filename f c :
  hot_step E now m filename !! (Hot, f) = Some c → m !! (Hot, f) = Some c.
Proof.
  unfold hot_step. destruct (endswith filename ".json"); [|done].
  by apply lookup_transfer_src_dir.
Qed.

Lemma cool_step_archive_grows now m filename_gz f :
  is_Some (m !! (Archive, f)) →
  is_Some (cool_step E now m filename_gz !! (Archive, f)).
Proof.
  intros Hsome. unfold cool_step.
  destruct (endswith filename_gz ".json.gz"); [|done].
  destruct (decide (f = replace_gz filename_gz +:+ ".gz")) as [->|Hf].
  - by apply lookup_transfer_dst_some.
  - rewrite lookup_transfer_other; [done..|congruence].
Qed.

Lemma pass_frame now m p :
  p.1 ≠ Hot → p.1 ≠ Cool → p.1 ≠ Archive →
  cool_scan E now (hot_scan E now m) !! p = m !! p.
Proof.
  intros Hhot Hcool Harch. unfold cool_scan, hot_scan.
  apply (foldl_invariant (cool_step E now) (λ s, s !! p = m !! p)).
  { intros s x Hs. by rewrite cool_step_frame. }
  apply (foldl_invariant (hot_step E now) (λ s, s !! p = m !! p)); [|done].
  intros s x Hs. by rewrite hot_step_frame.
Qed.

Lemma pass_hot_shrinks now m f c :
  cool_scan E now (hot_scan E now m) !! (Hot, f) = Some c → m !! (Hot, f) = Some c.
Proof.
  rewrite lookup_cool_scan_hot. unfold hot_scan.
  apply (foldl_invariant (hot_step E now)
           (λ s, s !! (Hot, f) = Some c → m !! (Hot, f) = Some c)); [|done].
  intros s x Hs Hc. by apply Hs, (hot_step_hot_shrinks now s x).
Qed.

Lemma pass_archive_grows now m f :
  is_Some (m !! (Archive, f)) →
  is_Some (cool_scan E now (hot_scan E now m) !! (Archive, f)).
Proof.
  intros Hsome. unfold cool_scan, hot_scan.
  apply (foldl_invariant (cool_step E now) (λ s, is_Some (s !! (Archive, f)))).
  { intros s x. apply cool_step_archive_grows. }
  apply (foldl_invariant (hot_step E now) (λ s, is_Some (s !! (Archive, f))));
    [|done].
  intros s x Hs. by rewrite hot_step_frame.
Qed.

(** A file of Hot that the loop does not move is still there afterwards. *)
Lemma hot_scan_keeps now m f raw :
  m !! (Hot, f) = Some raw →
  moves_from_hot E now m f = false →
  hot_scan E now m !! (Hot, f) = Some raw.
Proof.
  intros Hraw Hidle. unfold hot_scan.
  apply (foldl_invariant (hot_step E now) (λ s, s !! (Hot, f) = Some raw));
    [|done].
  intros s x Hs. destruct (decide (x = f)) as [->|Hx].
  - rewrite hot_step_idle; [done|]. rewrite <- Hidle. unfold moves_from_hot.
    f_equal. f_equal. apply read_value_ext. congruence.
  - unfold hot_step. destruct (endswith x ".json"); [|done].
    rewrite lookup_transfer_other; [done..|congruence|done].
Qed.

(** A file of Cool onto which the loop over Hot moves nothing is left as it
    is by that loop. *)
Lemma hot_scan_keeps_cool now m name :
  (∀ f, f +:+ ".gz" = name → moves_from_hot E now m f = false) →
  hot_scan E now m !! (Cool, name) = m !! (Cool, name).
Proof.
  intros Hidle. unfold hot_scan.
  apply (foldl_invariant (hot_step E now)
           (λ s, s !! (Cool, name) = m !! (Cool, name)
                 ∧ ∀ f, f +:+ ".gz" = name → moves_from_hot E now s f = false));
    [|done].
  intros s x [Hs Hsettled]. split.
  - destruct (decide (x +:+ ".gz" = name)) as [Hx|Hx].
    + by rewrite hot_step_idle by (by apply Hsettled).
    + unfold hot_step. destruct (endswith x ".json"); [|done].
      rewrite lookup_transfer_other; [done..|congruence].
  - intros f Hf. by apply hot_step_keeps_settled, Hsettled.
Qed.

(** A file of Cool that fails the age test, or cannot be read, is left as
    it is by the loop over Cool, and so is the Archive file of its name. *)
Lemma cool_scan_keeps now m name :
  due now COOL_TIER_RETENTION_MONTHS (read_value E (Cool, name) true m) = false →
  cool_scan E now m !! (Cool, name) = m !! (Cool, name)
  ∧ cool_scan E now m !! (Archive, name) = m !! (Archive, name).
Proof.
  intros Hdue. unfold cool_scan.
  apply (foldl_invariant (cool_step E now)
           (λ s, s !! (Cool, name) = m !! (Cool, name)
                 ∧ s !! (Archive, name) = m !! (Archive, name))); [|done].
  intros s x [Hcool Harch].
  destruct (decide (replace_gz x +:+ ".gz" = name)) as [Hx|Hx].
  - rewrite cool_step_idle; [done|]. unfold moves_from_cool. rewrite Hx.
    rewrite (read_value_ext E _ _ s m), Hdue by done. apply andb_false_r.
  - unfold cool_step. destruct (endswith x ".json.gz"); [|done].
    rewrite !lookup_transfer_other; [done|done|congruence..].
Qed.

End PassFrame.

(** X2.  A pass returns, whatever the files hold and whatever the
    environment refuses: a file that cannot be read or decoded, a refused
    write and a refused removal are caught record by record.  It spends no
    time in [time.sleep]. *)
Theorem pass_returns `{L : PyLib} (E : env) (now : Z) (w : world) :
  ∃ w', manage_data_tiers E now w = (Return (), w') ∧ slept w' = slept w.
Proof. rewrite manage_data_tiers_eq. by eexists. Qed.

(** X3.  A pass moves records one way only: it adds no file to Hot and
    changes none there, it removes no file from Archive, and it leaves the
    directory of rehydrated copies as it is. *)
Theorem pass_one_directional `{L : PyLib} (E : env) (now : Z) (w : world) :
  let w' := (manage_data_tiers E now w).2 in
  (∀ f c, files w' !! (Hot, f) = Some c → files w !! (Hot, f) = Some c)
  ∧ (∀ f, is_Some (files w !! (Archive, f)) → is_Some (files w' !! (Archive, f)))
  ∧ (∀ f, files w' !! (Rehydrated, f) = files w !! (Rehydrated, f)).
Proof.
  intros w'. unfold w'. rewrite manage_data_tiers_eq. cbn [snd files set_files].
  split; [|split].
  - intros f c. apply pass_hot_shrinks.
  - intros f. apply pass_archive_grows.
  - intros f. by apply pass_frame.
Qed.

Lemma pass_one_directional_witness :
  let w' := (manage_data_tiers permissive Fixture.now Fixture.archived_stale_cache).2 in
  is_Some (files w' !! Fixture.archive_file).
Proof.
  apply (pass_one_directional permissive Fixture.now Fixture.archived_stale_cache).
  eexists. vm_compute. reflexivity.
Defined.

(** X4.  A file of Hot is left untouched by a pass when its name does not
    end in [.json] or the record read from it fails the 3-month test, which
    is the case of a record issued less than 92 days ago and of a file that
    cannot be read, decoded or dated. *)
Theorem hot_file_not_due_stays `{L : PyLib} (E : env) (now : Z) (w : world)
    (filename raw : string) :
  files w !! (Hot, filename) = Some raw →
  endswith filename ".json" = false
  ∨ due now HOT_TIER_RETENTION_MONTHS
        (read_value E (Hot, filename) false (files w)) = false →
  files (manage_data_tiers E now w).2 !! (Hot, filename) = Some raw.
Proof.
  intros Hraw Hidle. rewrite manage_data_tiers_eq. cbn [snd files set_files].
  rewrite lookup_cool_scan_hot. apply hot_scan_keeps; [done|].
  unfold moves_from_hot. destruct Hidle as [->| ->]; [done|apply andb_false_r].
Qed.

Lemma hot_file_not_due_stays_witness :
  let w := World {[ Fixture.hot_file := "{" ]} 0 in
  files (manage_data_tiers permissive Fixture.now w).2 !! Fixture.hot_file
  = Some "{".
Proof.
  apply (hot_file_not_due_stays permissive Fixture.now).
  - vm_compute. reflexivity.
  - right. vm_compute. reflexivity.
Defined.

(** X5.  A file of Cool is left untouched by a pass, and nothing is written
    under its name in Archive, when the record read from it fails the
    12-month test (a younger record, or a file that cannot be read or
    decoded) and the loop over Hot moves no record onto it. *)
Theorem cool_file_not_due_stays `{L : PyLib} (E : env) (now : Z) (w : world)
    (name : string) :
  due now COOL_TIER_RETENTION_MONTHS
      (read_value E (Cool, name) true (files w)) = false →
  (∀ f, f +:+ ".gz" = name → moves_from_hot E now (files w) f = false) →
  let w' := (manage_data_tiers E now w).2 in
  files w' !! (Cool, name) = files w !! (Cool, name)
  ∧ files w' !! (Archive, name) = files w !! (Archive, name).
Proof.
  intros Hdue Hidle w'. unfold w'.
  rewrite manage_data_tiers_eq. cbn [snd files set_files].
  pose proof (hot_scan_keeps_cool E now (files w) name Hidle) as Hcool.
  destruct (cool_scan_keeps E now (hot_scan E now (files w)) name) as [Hc Ha].
  { by rewrite (read_value_ext E _ _ _ (files w)). }
  rewrite Hc, Ha, Hcool. split; [done|].
  unfold hot_scan.
  apply (foldl_invariant (hot_step E now)
           (λ s, s !! (Archive, name) = files w !! (Archive, name))); [|done].
  intros s x Hs. by rewrite hot_step_frame.
Qed.

Lemma cool_file_not_due_stays_witness :
  let w := World {[ Fixture.cool_file :=
                      gzip_compress COOL_COMPRESSION_LEVEL (json_dumps Fixture.aged) ]} 0 in
  let w' := (manage_data_tiers permissive Fixture.now w).2 in
  files w' !! Fixture.cool_file = files w !! Fixture.cool_file
  ∧ files w' !! Fixture.archive_file = files w !! Fixture.archive_file.
Proof.
  intros w.
  apply (cool_file_not_due_stays permissive Fixture.now w "BILL-00001.json.gz").
  - vm_compute. reflexivity.
  - intros f _. apply moves_from_hot_absent.
    unfold w. cbn [files]. by rewrite lookup_singleton_ne.
Defined.

(** ** Where a pass takes a record *)

Section PassMoves.
Context `{L : PyLib} (E : env).
Implicit Types (p src dst : path) (compressed : bool) (m : gmap path string).
Implicit Types (now threshold level : Z) (filename filename_gz f name c raw : string).

(** What [read_data] makes of the Cool copy the pass has written. *)
Lemma read_value_cool_copy m name (record : json) :
  m !! (Cool, name)
  = Some (gzip_compress COOL_COMPRESSION_LEVEL (json_dumps record)) →
  json_loads (json_dumps record) = Some record →
  gzip_decompress (gzip_compress COOL_COMPRESSION_LEVEL (json_dumps record))
  = Some (json_dumps record) →
  read_value E (Cool, name) true m
  = if deny_read E (Cool, name) then JNull else record.
Proof.
  intros Hm Hjson Hgzip. unfold read_value. rewrite Hm.
  destruct (deny_read E (Cool, name)); [done|]. by rewrite Hgzip, Hjson.
Qed.

Lemma stops_in_cool now m filename (record : json) :
  listdir_lists →
  endswith filename ".json" = true →
  read_value E (Hot, filename) false m = record →
  due now HOT_TIER_RETENTION_MONTHS record = true →
  due now COOL_TIER_RETENTION_MONTHS record = false →
  json_loads (json_dumps record) = Some record →
  gzip_decompress (gzip_compress COOL_COMPRESSION_LEVEL (json_dumps record))
  = Some (json_dumps record) →
  deny_write E (Cool, filename +:+ ".gz") = false →
  deny_remove E (Hot, filename) = false →
  let m' := cool_scan E now (hot_scan E now m) in
  m' !! (Hot, filename) = None
  ∧ m' !! (Cool, filename +:+ ".gz")
    = Some (gzip_compress COOL_COMPRESSION_LEVEL (json_dumps record))
  ∧ m' !! (Archive, filename +:+ ".gz") = m !! (Archive, filename +:+ ".gz").
Proof.
  intros Hlist Hname Hread Hdue3 Hdue12 Hjson Hgzip Hwr Hrm m'.
  destruct (hot_scan_moves E now m filename record) as [Hhot Hcool]; [done..|].
  destruct (cool_scan_keeps E now (hot_scan E now m) (filename +:+ ".gz"))
    as [Hc Ha].
  { rewrite (read_value_cool_copy _ _ record) by done.
    by destruct (deny_read E _). }
  unfold m'. rewrite lookup_cool_scan_hot, Hc, Ha, Hhot, Hcool.
  split; [done|]. split; [done|].
  unfold hot_scan.
  apply (foldl_invariant (hot_step E now)
           (λ s, s !! (Archive, filename +:+ ".gz")
                 = m !! (Archive, filename +:+ ".gz"))); [|done].
  intros s x Hs. by rewrite hot_step_frame.
Qed.

Lemma cool_reaches_archive now m filename (record : json) :
  listdir_lists →
  endswith (filename +:+ ".gz") ".json.gz" = true →
  replace_gz (filename +:+ ".gz") = filename →
  read_value E (Cool, filename +:+ ".gz") true m = record →
  due now COOL_TIER_RETENTION_MONTHS record = true →
  moves_from_hot E now m filename = false →
  deny_write E (Archive, filename +:+ ".gz") = false →
  deny_remove E (Cool, filename +:+ ".gz") = false →
  let m' := cool_scan E now (hot_scan E now m) in
  m' !! (Cool, filename +:+ ".gz") = None
  ∧ m' !! (Archive, filename +:+ ".gz")
    = Some (gzip_compress ARCHIVE_COMPRESSION_LEVEL (json_dumps record)).
Proof.
  intros Hlist Hgz Hrep Hread Hdue Hidle Hwr Hrm m'.
  apply cool_scan_moves; try done.
  rewrite <- Hread. apply read_value_ext. apply hot_scan_keeps_cool.
  intros f Hf%string_app_inj_r. by subst f.
Qed.

End PassMoves.

(** X6.  A record of the Hot tier that passes the 3-month test and fails
    the 12-month test is moved to Cool, compressed at the Cool level, and
    stops there: after the pass it is not in Hot, its Cool file replaces
    whatever Cool held under that name, and nothing is written under that
    name in Archive.  (The codecs invert each other on the record, and
    its write to Cool and removal from Hot are not refused.) *)
Theorem due_record_stops_in_cool `{L : PyLib} (E : env) (now : Z) (w : world)
    (record_id : string) (record : json) :
  let filename := record_id +:+ ".json" in
  listdir_lists →
  read_value E (Hot, filename) false (files w) = record →
  due now HOT_TIER_RETENTION_MONTHS record = true →
  due now COOL_TIER_RETENTION_MONTHS record = false →
  json_loads (json_dumps record) = Some record →
  gzip_decompress (gzip_compress COOL_COMPRESSION_LEVEL (json_dumps record))
  = Some (json_dumps record) →
  deny_write E (Cool, filename +:+ ".gz") = false →
  deny_remove E (Hot, filename) = false →
  let w' := (manage_data_tiers E now w).2 in
  files w' !! tier_path Hot record_id = None
  ∧ files w' !! tier_path Cool record_id
    = Some (gzip_compress COOL_COMPRESSION_LEVEL (json_dumps record))
  ∧ files w' !! tier_path Archive record_id
    = files w !! tier_path Archive record_id.
Proof.
  intros filename Hlist Hread Hdue3 Hdue12 Hjson Hgzip Hwr Hrm w'.
  unfold w'. rewrite manage_data_tiers_eq. cbn [snd files set_files].
  rewrite tier_path_Hot, tier_path_Cool, tier_path_Archive. fold filename.
  apply stops_in_cool; try done. apply endswith_app.
Qed.

Lemma due_record_stops_in_cool_witness :
  let w := Fixture.in_hot Fixture.aged in
  let w' := (manage_data_tiers permissive Fixture.now w).2 in
  files w' !! Fixture.hot_file = None
  ∧ files w' !! Fixture.cool_file
    = Some (gzip_compress COOL_COMPRESSION_LEVEL (json_dumps Fixture.aged))
  ∧ files w' !! Fixture.archive_file = files w !! Fixture.archive_file.
Proof.
  intros w.
  apply (due_record_stops_in_cool permissive Fixture.now w "BILL-00001" Fixture.aged).
  - apply Ref_listdir_ok.
  - vm_compute. reflexivity.
  - vm_compute. reflexivity.
  - vm_compute. reflexivity.
  - vm_compute. reflexivity.
  - vm_compute. reflexivity.
  - reflexivity.
  - reflexivity.
Defined.

(** X7.  A record of the Cool tier that passes the 12-month test is moved
    to Archive, compressed at the Archive level, by one pass: afterwards it
    is not in Cool, and its Archive file replaces whatever Archive held
    under that name.  (Its file name has [.gz] only as its extension, no
    record of that name is moved out of Hot in the same pass, and its write
    to Archive and removal from Cool are not refused.) *)
Theorem cool_record_reaches_archive `{L : PyLib} (E : env) (now : Z) (w : world)
    (record_id : string) (record : json) :
  let filename := record_id +:+ ".json" in
  listdir_lists →
  replace_gz (filename +:+ ".gz") = filename →
  read_value E (Cool, filename +:+ ".gz") true (files w) = record →
  due now COOL_TIER_RETENTION_MONTHS record = true →
  moves_from_hot E now (files w) filename = false →
  deny_write E (Archive, filename +:+ ".gz") = false →
  deny_remove E (Cool, filename +:+ ".gz") = false →
  let w' := (manage_data_tiers E now w).2 in
  files w' !! tier_path Cool record_id = None
  ∧ files w' !! tier_path Archive record_id
    = Some (gzip_compress ARCHIVE_COMPRESSION_LEVEL (json_dumps record)).
Proof.
  intros filename Hlist Hrep Hread Hdue Hidle Hwr Hrm w'.
  unfold w'. rewrite manage_data_tiers_eq. cbn [snd files set_files].
  rewrite tier_path_Cool, tier_path_Archive. fold filename.
  apply cool_reaches_archive; try done.
  unfold filename. rewrite string_app_assoc. apply endswith_app.
Qed.

Lemma cool_record_reaches_archive_witness :
  let w := World {[ Fixture.cool_file :=
                      gzip_compress COOL_COMPRESSION_LEVEL (json_dumps Fixture.old) ]} 0 in
  let w' := (manage_data_tiers permissive Fixture.now w).2 in
  files w' !! Fixture.cool_file = None
  ∧ files w' !! Fixture.archive_file
    = Some (gzip_compress ARCHIVE_COMPRESSION_LEVEL (json_dumps Fixture.old)).
Proof.
  intros w.
  apply (cool_record_reaches_archive permissive Fixture.now w "BILL-00001" Fixture.old).
  - apply Ref_listdir_ok.
  - vm_compute. reflexivity.
  - vm_compute. reflexivity.
  - vm_compute. reflexivity.
  - vm_compute. reflexivity.
  - reflexivity.
  - reflexivity.
Defined.

(** X8.  The loop over Cool does not act on the file it lists but on the
    file named by deleting every [.gz] from the listed name and appending
    [.gz]: only that file of Cool and the Archive file of that name can
    change.  A listed file with [.gz] elsewhere in its name is therefore
    left where it is, whatever its age. *)
Theorem cool_loop_acts_on_replaced_name `{L : PyLib} (E : env) (now : Z)
    (filename_gz : string) (w : world) :
  let target := replace_gz filename_gz +:+ ".gz" in
  let w' := (cool_to_archive E now filename_gz w).2 in
  (∀ p, p ≠ (Cool, target) → p ≠ (Archive, target) → files w' !! p = files w !! p)
  ∧ (target ≠ filename_gz →
     files w' !! (Cool, filename_gz) = files w !! (Cool, filename_gz)).
Proof.
  intros target w'. unfold w'. rewrite cool_to_archive_eq. cbn [snd files set_files].
  assert (∀ p, p ≠ (Cool, target) → p ≠ (Archive, target) →
               cool_step E now (files w) filename_gz !! p = files w !! p) as Hframe.
  { intros p Hc Ha. unfold cool_step.
    destruct (endswith filename_gz ".json.gz"); [|done].
    by apply lookup_transfer_other. }
  split; [done|]. intros Hne. apply Hframe; congruence.
Qed.

Lemma cool_loop_acts_on_replaced_name_witness :
  let w := World {[ (Cool, "BILL-00001.gz.json.gz") :=
                      gzip_compress COOL_COMPRESSION_LEVEL (json_dumps Fixture.old) ]} 0 in
  let w' := (cool_to_archive permissive Fixture.now "BILL-00001.gz.json.gz" w).2 in
  files w' !! (Cool, "BILL-00001.gz.json.gz")
  = files w !! (Cool, "BILL-00001.gz.json.gz").
Proof.
  intros w.
  apply (cool_loop_acts_on_replaced_name permissive Fixture.now
           "BILL-00001.gz.json.gz" w).
  vm_compute. discriminate.
Defined.

(** ** More on retrieval *)

Section RetrievalMore.
Context `{L : PyLib} (E : env).
Implicit Types (m : gmap path string) (record_id : string).

(** The branch [retrieve_data] takes depends on Hot, Cool and Archive
    only. *)
Lemma in_tier_agree m1 m2 t record_id :
  (∀ p, p.1 ≠ Rehydrated → m1 !! p = m2 !! p) →
  lifecycle_tier t →
  in_tier m1 t record_id ↔ in_tier m2 t record_id.
Proof.
  intros Hagree Ht. unfold in_tier. rewrite Hagree; [done|].
  by rewrite tier_path_tier.
Qed.

Lemma read_value_agree m1 m2 p compressed :
  (∀ p, p.1 ≠ Rehydrated → m1 !! p = m2 !! p) →
  p.1 ≠ Rehydrated →
  read_value E p compressed m1 = read_value E p compressed m2.
Proof. intros Hagree Hp. apply read_value_ext. by apply Hagree. Qed.

(** The record a rehydration returns is made from the Archive copy alone. *)
Lemma rehydrated_agree m1 m2 record_id :
  (∀ p, p.1 ≠ Rehydrated → m1 !! p = m2 !! p) →
  (rehydrated E record_id m1).1 = (rehydrated E record_id m2).1.
Proof.
  intros Hagree. unfold rehydrated.
  rewrite (Hagree (tier_path Archive record_id)) by done.
  destruct (m2 !! tier_path Archive record_id) as [raw|]; [|done].
  destruct (deny_read E _); [done|].
  destruct (deny_write E _); [done|].
  destruct (deny_remove E _); [done|].
  rewrite (read_value_ext E _ true (<[_ := raw]> m1) (<[_ := raw]> m2))
    by (by rewrite !lookup_insert_eq).
  by destruct (truthy _).
Qed.

(** A successful rehydration leaves no temporary copy. *)
Lemma rehydrated_no_temporary record_id m :
  (rehydrated E record_id m).1 ≠ JNull →
  (rehydrated E record_id m).2 !! (Rehydrated, (record_id +:+ ".json") +:+ ".gz")
  = None.
Proof.
  unfold rehydrated.
  destruct (m !! tier_path Archive record_id) as [raw|]; [|done].
  destruct (deny_read E _); [done|].
  destruct (deny_write E _); [done|].
  destruct (deny_remove E _); [done|].
  destruct (truthy _); [|done]. cbn [fst snd]. intros _.
  rewrite lookup_store_other, lookup_delete_eq; [done|].
  intros [= Heq]. symmetry in Heq. by apply string_app_ne in Heq.
Qed.

(** Rehydrating again what has just been rehydrated gives the same record
    and the same files. *)
Lemma rehydrated_again record_id m :
  (rehydrated E record_id m).1 ≠ JNull →
  rehydrated E record_id (rehydrated E record_id m).2 = rehydrated E record_id m.
Proof.
  intros Hok.
  pose proof (rehydrated_no_temporary record_id m Hok) as Htmp.
  pose proof (rehydrated_frame E record_id m (tier_path Archive record_id)) as Harch.
  destruct (rehydrated E record_id m) as [data m'] eqn:Hform.
  cbn [fst snd] in Hok, Htmp, Harch |- *.
  unfold rehydrated in Hform |- *. rewrite Harch by done.
  destruct (m !! tier_path Archive record_id) as [raw|]; [|congruence].
  destruct (deny_read E (tier_path Archive record_id)); [congruence|].
  destruct (deny_write E (Rehydrated, _ +:+ ".gz")); [congruence|].
  destruct (deny_remove E _); [congruence|].
  rewrite (read_value_ext E _ true (<[_ := raw]> m') (<[_ := raw]> m))
    by (by rewrite !lookup_insert_eq).
  destruct (truthy _); [|congruence].
  injection Hform as Hdata Hm'. rewrite Hdata. f_equal.
  rewrite delete_insert_eq, (delete_id m') by done.
  rewrite Hdata in Hm'. unfold store, torn in Hm' |- *.
  destruct (deny_write E (Rehydrated, record_id +:+ ".json"));
    [destruct (torn_write E (Rehydrated, record_id +:+ ".json")); [|done]|];
    apply insert_id; rewrite <- Hm'; by rewrite lookup_insert_eq.
Qed.

End RetrievalMore.

(** X9.  [retrieve_data] waits only for a record it finds in Archive alone:
    5 seconds with high priority and 15 without, whether or not the
    rehydration then succeeds.  A record found in Hot or in Cool, and an
    identifier found nowhere, are answered without waiting. *)
Theorem retrieval_delay `{L : PyLib} (E : env) (record_id : string)
    (high_priority : bool) (w : world) :
  let w' := (retrieve_data E record_id high_priority w).2 in
  (in_tier (files w) Hot record_id ∨ in_tier (files w) Cool record_id
   ∨ ¬ in_tier (files w) Archive record_id →
   slept w' = slept w)
  ∧ (¬ in_tier (files w) Hot record_id →
     ¬ in_tier (files w) Cool record_id →
     in_tier (files w) Archive record_id →
     slept w' = slept w + (if high_priority then 5 else 15)).
Proof.
  intros w'. unfold w'. split.
  - intros Hcase.
    destruct (decide (in_tier (files w) Hot record_id)) as [Hhot|Hhot].
    { by rewrite retrieve_data_hot, read_data_eq. }
    destruct (decide (in_tier (files w) Cool record_id)) as [Hcool|Hcool].
    { by rewrite retrieve_data_cool, read_data_eq. }
    destruct Hcase as [?|[?|Harch]]; [done..|].
    by rewrite retrieve_data_absent.
  - intros Hhot Hcool Harch. by rewrite retrieve_data_archive.
Qed.

Lemma retrieval_delay_witness :
  slept (retrieve_data permissive "BILL-00001" true
           (Fixture.in_archive Fixture.old)).2 = 5
  ∧ slept (retrieve_data permissive "BILL-00001" false
             (Fixture.in_archive Fixture.old)).2 = 15.
Proof.
  assert (¬ in_tier (files (Fixture.in_archive Fixture.old)) Hot "BILL-00001")
    as Hhot by (intros [c Hc]; vm_compute in Hc; discriminate).
  assert (¬ in_tier (files (Fixture.in_archive Fixture.old)) Cool "BILL-00001")
    as Hcool by (intros [c Hc]; vm_compute in Hc; discriminate).
  assert (in_tier (files (Fixture.in_archive Fixture.old)) Archive "BILL-00001")
    as Harch by (eexists; vm_compute; reflexivity).
  split.
  - by rewrite (proj2 (retrieval_delay permissive "BILL-00001" true
                         (Fixture.in_archive Fixture.old)) Hhot Hcool Harch).
  - by rewrite (proj2 (retrieval_delay permissive "BILL-00001" false
                         (Fixture.in_archive Fixture.old)) Hhot Hcool Harch).
Defined.

(** X10.  The priority of a retrieval changes the delay and nothing else:
    the record returned and the files left are the same with and without
    high priority. *)
Theorem priority_changes_only_delay `{L : PyLib} (E : env) (record_id : string)
    (w : world) :
  (retrieve_data E record_id true w).1 = (retrieve_data E record_id false w).1
  ∧ files (retrieve_data E record_id true w).2
    = files (retrieve_data E record_id false w).2.
Proof.
  destruct (decide (in_tier (files w) Hot record_id)) as [Hhot|Hhot].
  { by rewrite !retrieve_data_hot. }
  destruct (decide (in_tier (files w) Cool record_id)) as [Hcool|Hcool].
  { by rewrite !retrieve_data_cool. }
  destruct (decide (in_tier (files w) Archive record_id)) as [Harch|Harch].
  { by rewrite !retrieve_data_archive. }
  by rewrite !retrieve_data_absent.
Qed.

(** X11.  [retrieve_data] never answers from the directory of rehydrated
    copies: two states of the directories that agree on Hot, Cool and
    Archive give the same answer, whatever that directory holds.  A record
    rehydrated before is fetched from Archive again. *)
Theorem retrieval_ignores_rehydrated `{L : PyLib} (E : env) (record_id : string)
    (high_priority : bool) (w1 w2 : world) :
  (∀ p, p.1 ≠ Rehydrated → files w1 !! p = files w2 !! p) →
  (retrieve_data E record_id high_priority w1).1
  = (retrieve_data E record_id high_priority w2).1.
Proof.
  intros Hagree.
  assert (∀ t, lifecycle_tier t →
               in_tier (files w1) t record_id ↔ in_tier (files w2) t record_id)
    as Hin by (intros t Ht; by apply in_tier_agree).
  pose proof (Hin Hot ltac:(done)) as Hh.
  pose proof (Hin Cool ltac:(done)) as Hc.
  pose proof (Hin Archive ltac:(done)) as Ha.
  destruct (decide (in_tier (files w1) Hot record_id)) as [Hhot|Hhot].
  { rewrite (retrieve_data_hot E _ _ w1), (retrieve_data_hot E _ _ w2)
      by tauto.
    rewrite !read_data_eq. cbn [fst]. f_equal. by apply read_value_agree. }
  destruct (decide (in_tier (files w1) Cool record_id)) as [Hcool|Hcool].
  { rewrite (retrieve_data_cool E _ _ w1), (retrieve_data_cool E _ _ w2)
      by tauto.
    rewrite !read_data_eq. cbn [fst]. f_equal. by apply read_value_agree. }
  destruct (decide (in_tier (files w1) Archive record_id)) as [Harch|Harch].
  { rewrite (retrieve_data_archive E _ _ w1), (retrieve_data_archive E _ _ w2)
      by tauto.
    cbn [fst]. f_equal. by apply rehydrated_agree. }
  by rewrite (retrieve_data_absent E _ _ w1), (retrieve_data_absent E _ _ w2)
    by tauto.
Qed.

Lemma retrieval_ignores_rehydrated_witness :
  (retrieve_data permissive "BILL-00001" true Fixture.archived_stale_cache).1
  = (retrieve_data permissive "BILL-00001" true (Fixture.in_archive Fixture.old)).1.
Proof.
  apply (retrieval_ignores_rehydrated permissive "BILL-00001" true
           Fixture.archived_stale_cache (Fixture.in_archive Fixture.old)).
  intros p Hp. unfold Fixture.archived_stale_cache, Fixture.in_archive.
  cbn [files]. destruct (decide (p = Fixture.archive_file)) as [->|Hne].
  - by rewrite lookup_insert_eq, lookup_singleton_eq.
  - rewrite lookup_insert_ne, !lookup_singleton_ne; [done|congruence| |congruence].
    intros <-. by apply Hp.
Defined.

(** X12.  A retrieval that returns a record found in Archive alone leaves
    no compressed temporary copy in the directory of rehydrated copies,
    also when a file of that name was there before; and retrieving the
    record again returns the same record and changes no file. *)
Theorem rehydration_settles `{L : PyLib} (E : env) (record_id : string)
    (high_priority again_priority : bool) (w w' : world) (v : json) :
  ¬ in_tier (files w) Hot record_id →
  ¬ in_tier (files w) Cool record_id →
  in_tier (files w) Archive record_id →
  retrieve_data E record_id high_priority w = (Return v, w') →
  v ≠ JNull →
  files w' !! (Rehydrated, (record_id +:+ ".json") +:+ ".gz") = None
  ∧ (retrieve_data E record_id again_priority w').1 = Return v
  ∧ files (retrieve_data E record_id again_priority w').2 = files w'.
Proof.
  intros Hhot Hcool Harch Hret Hv.
  rewrite retrieve_data_archive in Hret by done.
  injection Hret as Hval Hw. subst w' v. cbn [files].
  split; [by apply rehydrated_no_temporary|].
  assert (∀ t, lifecycle_tier t →
               in_tier (rehydrated E record_id (files w)).2 t record_id
               ↔ in_tier (files w) t record_id) as Hin.
  { intros t Ht. apply in_tier_agree; [|done].
    intros p Hp. by apply rehydrated_frame. }
  rewrite retrieve_data_archive by (cbn [files]; rewrite ?Hin; done).
  cbn [fst snd files]. by rewrite rehydrated_again.
Qed.

Lemma rehydration_settles_witness :
  let w := Fixture.in_archive Fixture.old in
  let w' := (retrieve_data permissive "BILL-00001" true w).2 in
  files w' !! (Rehydrated, "BILL-00001.json.gz") = None
  ∧ (retrieve_data permissive "BILL-00001" false w').1 = Return Fixture.old
  ∧ files (retrieve_data permissive "BILL-00001" false w').2 = files w'.
Proof.
  intros w w'.
  apply (rehydration_settles permissive "BILL-00001" true false w w' Fixture.old).
  - intros [c Hc]. vm_compute in Hc. discriminate.
  - intros [c Hc]. vm_compute in Hc. discriminate.
  - eexists. vm_compute. reflexivity.
  - vm_compute. reflexivity.
  - discriminate.
Defined.

(** ** Record numbers and file names *)

Lemma digit_of_pretty_N_char (d : N) : (d < 10)%N → digit_of (pretty_N_char d) = d.
Proof.
  intros Hd.
  assert (d = 0 ∨ d = 1 ∨ d = 2 ∨ d = 3 ∨ d = 4 ∨ d = 5 ∨ d = 6 ∨ d = 7
          ∨ d = 8 ∨ d = 9)%N as Hcases by lia.
  repeat (destruct Hcases as [->|Hcases]; [done|]). by subst d.
Qed.

Lemma decimal_value_pretty_N_go (x : N) (s : string) :
  decimal_value 0 (pretty_N_go x s) = decimal_value x s.
Proof.
  revert s. induction (N.lt_wf_0 x) as [x _ IH]; intros s.
  destruct (decide (x = 0)%N) as [->|Hx]; [by rewrite pretty_N_go_0|].
  rewrite pretty_N_go_step by lia. rewrite IH by (apply N.div_lt; lia).
  cbn [decimal_value]. rewrite digit_of_pretty_N_char by (by apply N.mod_lt).
  f_equal. pose proof (N.div_mod x 10). lia.
Qed.

Lemma decimal_value_pretty (x : N) : decimal_value 0 (pretty x) = x.
Proof.
  unfold pretty, pretty_N. destruct (decide (x = 0)%N) as [->|Hx]; [done|].
  by rewrite decimal_value_pretty_N_go.
Qed.

Lemma decimal_value_zeros (k : nat) (s : string) :
  decimal_value 0 (zeros k +:+ s) = decimal_value 0 s.
Proof. induction k as [|k IH]; [done|]. exact IH. Qed.

Lemma pretty_N_no_dash (x : N) (s : string) : pretty x ≠ String "-" s.
Proof.
  unfold pretty, pretty_N. destruct (decide (x = 0)%N); [done|].
  by apply (pretty_N_go_ne_dash x "" s).
Qed.

Lemma zeros_pretty_no_dash (k : nat) (x : N) (s : string) :
  zeros k +:+ pretty x ≠ String "-" s.
Proof.
  destruct k as [|k]; [apply pretty_N_no_dash|]. done.
Qed.

Lemma format_d_value (width : nat) (n : Z) :
  decimal_value 0 (format_d width n) = Z.to_N (Z.abs n).
Proof.
  unfold format_d. destruct (n <? 0).
  - change ("-" +:+ ?s) with (String "-" s). cbn [decimal_value].
    change (10 * 0 + digit_of "-")%N with 0%N.
    by rewrite decimal_value_zeros, decimal_value_pretty.
  - change ("" +:+ ?s) with s.
    by rewrite decimal_value_zeros, decimal_value_pretty.
Qed.

Lemma format_d_inj (width : nat) (n1 n2 : Z) :
  format_d width n1 = format_d width n2 → n1 = n2.
Proof.
  intros Heq. pose proof (f_equal (decimal_value 0) Heq) as Hval.
  rewrite !format_d_value in Hval. revert Heq. unfold format_d.
  destruct (n1 <? 0) eqn:H1, (n2 <? 0) eqn:H2; intros Heq.
  - lia.
  - change ("-" +:+ ?s) with (String "-" s) in Heq.
    change ("" +:+ ?s) with s in Heq. symmetry in Heq.
    by apply zeros_pretty_no_dash in Heq.
  - change ("-" +:+ ?s) with (String "-" s) in Heq.
    change ("" +:+ ?s) with s in Heq.
    by apply zeros_pretty_no_dash in Heq.
  - lia.
Qed.

Lemma billing_record_id_inj (n1 n2 : Z) :
  billing_record_id n1 = billing_record_id n2 → n1 = n2.
Proof.
  unfold billing_record_id. intros Heq.
  apply (inj (String.app "BILL-")) in Heq. by apply format_d_inj in Heq.
Qed.

(** X13.  Two record numbers never share an identifier, nor a file: the
    identifier [generate_billing_record] prints determines the number,
    beyond five digits as well. *)
Theorem billing_record_id_injective (n1 n2 : Z) :
  billing_record_id n1 = billing_record_id n2 → n1 = n2.
Proof.
  unfold billing_record_id. intros Heq.
  apply (inj (String.app "BILL-")) in Heq.
  pose proof (f_equal (decimal_value 0) Heq) as Hval.
  rewrite !format_d_value in Hval.
  destruct (decide (n1 < 0 ↔ n2 < 0)) as [Hsign|Hsign]; [lia|].
  by apply (format_d_inj 5).
Qed.

Lemma billing_record_id_injective_witness :
  billing_record_id 99999 ≠ billing_record_id 100000.
Proof.
  intros Heq. apply billing_record_id_injective in Heq. discriminate Heq.
Defined.

Lemma replace_gz_cons (c : ascii) (s : string) :
  Ascii.eqb c "." = false → replace_gz (String c s) = String c (replace_gz s).
Proof.
  destruct c as [[] [] [] [] [] [] [] []]; try done; discriminate.
Qed.

Lemma replace_gz_dotless (s t : string) :
  dotless s = true → replace_gz (s +:+ t) = s +:+ replace_gz t.
Proof.
  induction s as [|c s IH]; [done|]. cbn [dotless].
  intros [Hc Hs]%andb_true_iff. apply negb_true_iff in Hc.
  change (String c s +:+ ?u) with (String c (s +:+ u)).
  by rewrite replace_gz_cons, IH.
Qed.

Lemma dotless_app (s t : string) :
  dotless s = true → dotless t = true → dotless (s +:+ t) = true.
Proof.
  intros Hs Ht. induction s as [|c s IH]; [done|].
  change (String c s +:+ t) with (String c (s +:+ t)). cbn [dotless] in Hs |- *.
  apply andb_true_iff in Hs as [-> Hs]. by rewrite IH.
Qed.

Lemma dotless_zeros (k : nat) : dotless (zeros k) = true.
Proof. induction k as [|k IH]; [done|]. exact IH. Qed.

Lemma dotless_pretty_N_char (d : N) : Ascii.eqb (pretty_N_char d) "." = false.
Proof. unfold pretty_N_char. by repeat case_match. Qed.

Lemma dotless_pretty_N_go (x : N) (s : string) :
  dotless s = true → dotless (pretty_N_go x s) = true.
Proof.
  revert s. induction (N.lt_wf_0 x) as [x _ IH]; intros s Hs.
  destruct (decide (x = 0)%N) as [->|Hx]; [by rewrite pretty_N_go_0|].
  rewrite pretty_N_go_step by lia. apply IH; [apply N.div_lt; lia|].
  cbn [dotless]. by rewrite dotless_pretty_N_char, Hs.
Qed.

Lemma dotless_format_d (width : nat) (n : Z) : dotless (format_d width n) = true.
Proof.
  unfold format_d. apply dotless_app; [by destruct (n <? 0)|].
  apply dotless_app; [apply dotless_zeros|].
  unfold pretty, pretty_N. destruct (decide _); [done|].
  by apply dotless_pretty_N_go.
Qed.

(** The files of the records the script generates have [.gz] only where the
    script appends it. *)
Lemma replace_gz_billing_file (n : Z) :
  replace_gz ((billing_record_id n +:+ ".json") +:+ ".gz")
  = billing_record_id n +:+ ".json".
Proof.
  rewrite string_app_assoc. unfold billing_record_id.
  rewrite replace_gz_dotless; [done|].
  apply dotless_app; [done|apply dotless_format_d].
Qed.

(** ** Ingestion *)

Lemma elem_of_py_range (n i : Z) : i ∈ py_range n ↔ 0 ≤ i < n.
Proof.
  unfold py_range. rewrite list_elem_of_In, in_map_iff. split.
  - intros (k & <- & Hk%in_seq). lia.
  - intros Hi. exists (Z.to_nat i). split; [lia|]. apply in_seq. lia.
Qed.

Lemma elem_of_record_numbers (n k : Z) :
  k ∈ map (λ i, i + 1) (py_range n) ↔ 1 ≤ k ≤ n.
Proof.
  rewrite list_elem_of_In, in_map_iff. split.
  - intros (i & <- & Hi). apply list_elem_of_In, elem_of_py_range in Hi. lia.
  - intros Hk. exists (k - 1). split; [lia|].
    apply list_elem_of_In, elem_of_py_range. lia.
Qed.

Section IngestionFacts.
Context `{L : PyLib} `{F : PyFormat} (E : env).
Implicit Types (w : world) (record : json) (date : datetime) (k n : Z).

(** The fields of a generated record that the script reads back. *)
Lemma generated_record_id k date record :
  generate_billing_record k date = Some record →
  py_getitem record "record_id" = Return (JStr (billing_record_id k)).
Proof.
  unfold generate_billing_record.
  destruct (float_of_int k); [|done]. by intros [= <-].
Qed.

Lemma generated_record_age now k date record :
  generate_billing_record k date = Some record →
  fromisoformat (isoformat date) = Some date →
  utcoffset date = None →
  record_age now record = Return (Some ((now - micros date) / us_per_day)).
Proof.
  unfold generate_billing_record.
  destruct (float_of_int k); [|done]. intros [= <-] Hiso Hnaive.
  unfold record_age. cbn [truthy negb].
  change (py_in "invoice_date" (JObj ?ms)) with (@Return bool true).
  cbn [bind outcome_bind negb].
  change (py_getitem (JObj ?ms) "invoice_date") with (Return (JStr (isoformat date))).
  cbn [bind outcome_bind datetime_fromisoformat]. rewrite Hiso.
  cbn [bind outcome_bind]. unfold timedelta_days. by rewrite Hnaive.
Qed.

Lemma ingest_records_frame date (record_ids : list Z) w p :
  (∀ k, k ∈ record_ids → p ≠ (Hot, billing_record_id k +:+ ".json")) →
  files (ingest_records E date record_ids w).2 !! p = files w !! p.
Proof.
  revert w. induction record_ids as [|x rest IH]; intros w Hp; [done|].
  cbn [ingest_records].
  destruct (generate_billing_record x date) as [record|]; [|done].
  rewrite IH by (intros k Hk; apply Hp; by right).
  rewrite write_data_eq. cbn [snd files set_files].
  apply lookup_store_other. intros Heq. by apply (Hp x); [left|].
Qed.

Lemma ingest_records_slept date (record_ids : list Z) w :
  slept (ingest_records E date record_ids w).2 = slept w.
Proof.
  revert w. induction record_ids as [|x rest IH]; intros w; [done|].
  cbn [ingest_records].
  destruct (generate_billing_record x date) as [record|]; [|done].
  rewrite IH. by rewrite write_data_eq.
Qed.

Lemma ingest_records_lookup date (record_ids : list Z) w w' k record :
  ingest_records E date record_ids w = (Ingested, w') →
  k ∈ record_ids →
  generate_billing_record k date = Some record →
  deny_write E (Hot, billing_record_id k +:+ ".json") = false →
  files w' !! (Hot, billing_record_id k +:+ ".json") = Some (json_dumps record).
Proof.
  revert w. induction record_ids as [|x rest IH]; intros w Hrun Hk Hgen Hwr.
  { by apply elem_of_nil in Hk. }
  cbn [ingest_records] in Hrun.
  destruct (generate_billing_record x date) as [rx|] eqn:Hx; [|done].
  destruct (decide (k ∈ rest)) as [Hrest|Hrest]; [by eapply IH|].
  apply elem_of_cons in Hk as [->|Hk]; [|done].
  assert (rx = record) as -> by congruence.
  pose proof (ingest_records_frame date rest
                (write_data E (get_file_path Hot (billing_record_id x +:+ ".json") false)
                   record None w).2
                (Hot, billing_record_id x +:+ ".json")) as Hframe.
  rewrite Hrun in Hframe. cbn [snd] in Hframe. rewrite Hframe.
  - rewrite write_data_eq. cbn [snd files set_files get_file_path].
    unfold store. cbn [get_file_path] in Hwr |- *. rewrite Hwr.
    by rewrite lookup_insert_eq.
  - intros j Hj Heq. apply (f_equal snd) in Heq. cbn [snd] in Heq.
    apply string_app_inj_r, billing_record_id_inj in Heq. by subst j.
Qed.

End IngestionFacts.

Section IngestionRuns.
Context `{L : PyLib} `{F : PyFormat} (E : env).
Implicit Types (w : world) (record : json) (k n : Z).

(** An ingestion that returns has run its loop on the date
    [days_ago] days before [now]. *)
Lemma ingest_data_ingested now n days_ago w w' :
  ingest_data E now n days_ago w = (Ingested, w') →
  ingest_records E (Datetime (now - days_ago * us_per_day) None)
    (map (λ i, i + 1) (py_range n)) w = (Ingested, w').
Proof.
  unfold ingest_data. destruct (999999999 <? Z.abs days_ago); [done|].
  by destruct (_ || _).
Qed.

Lemma ingested_file now n days_ago w w' k record :
  ingest_data E now n days_ago w = (Ingested, w') →
  1 ≤ k ≤ n →
  generate_billing_record k (Datetime (now - days_ago * us_per_day) None)
  = Some record →
  deny_write E (Hot, billing_record_id k +:+ ".json") = false →
  files w' !! (Hot, billing_record_id k +:+ ".json") = Some (json_dumps record).
Proof.
  intros Hrun%ingest_data_ingested Hk Hgen Hwr.
  eapply ingest_records_lookup; [done| |done..].
  by apply elem_of_record_numbers.
Qed.

Lemma read_value_plain (m : gmap path string) (p : path) record :
  m !! p = Some (json_dumps record) →
  deny_read E p = false →
  json_loads (json_dumps record) = Some record →
  read_value E p false m = record.
Proof. intros Hm Hrd Hjson. unfold read_value. by rewrite Hm, Hrd, Hjson. Qed.

End IngestionRuns.

(** X14.  A record made by [generate_billing_record] passes the checks of
    a pass and is aged by its date: when the library reads back the date it
    printed, the age the pass computes for the record is the whole number of
    days from its date to [now], and the record is due exactly when that
    number reaches the threshold. *)
Theorem generated_record_is_dated `{L : PyLib} `{F : PyFormat} (now k : Z)
    (date : datetime) (record : json) :
  generate_billing_record k date = Some record →
  fromisoformat (isoformat date) = Some date →
  utcoffset date = None →
  let days := (now - micros date) / us_per_day in
  record_age now record = Return (Some days)
  ∧ ∀ threshold, due now threshold record = age_reached days threshold.
Proof.
  intros Hgen Hiso Hnaive days.
  pose proof (generated_record_age now k date record Hgen Hiso Hnaive) as Hage.
  split; [done|]. intros threshold. unfold due. by rewrite Hage.
Qed.

Lemma generated_record_is_dated_witness :
  let date := Datetime (Fixture.now - 100 * us_per_day) None in
  let record := default JNull (generate_billing_record 7 date) in
  record_age Fixture.now record = Return (Some 100).
Proof.
  intros date record.
  apply (generated_record_is_dated Fixture.now 7 date record).
  - vm_compute. reflexivity.
  - vm_compute. reflexivity.
  - reflexivity.
Defined.

(** X15.  [ingest_data(num_records, days_ago)] writes nothing but the Hot
    files of the record numbers 1 to [num_records]: every other file, of
    Hot and of the other directories, is as before, whether the ingestion
    returns or stops on an [OverflowError]; with [num_records] below 1 no
    file changes. *)
Theorem ingest_data_frame `{L : PyLib} `{F : PyFormat} (E : env)
    (now num_records days_ago : Z) (w : world) :
  let w' := (ingest_data E now num_records days_ago w).2 in
  (∀ p, (∀ k, 1 ≤ k ≤ num_records → p ≠ (Hot, billing_record_id k +:+ ".json")) →
        files w' !! p = files w !! p)
  ∧ (num_records < 1 → files w' = files w)
  ∧ slept w' = slept w.
Proof.
  intros w'.
  assert (∀ p, (∀ k, 1 ≤ k ≤ num_records →
                     p ≠ (Hot, billing_record_id k +:+ ".json")) →
               files w' !! p = files w !! p) as Hframe.
  { intros p Hp. unfold w', ingest_data.
    destruct (999999999 <? Z.abs days_ago); [done|].
    destruct (_ || _); [done|].
    apply ingest_records_frame. intros k Hk%elem_of_record_numbers.
    by apply Hp. }
  split; [done|]. split.
  - intros Hn. apply map_eq. intros p. apply Hframe. intros k Hk. lia.
  - unfold w', ingest_data.
    destruct (999999999 <? Z.abs days_ago); [done|].
    destruct (_ || _); [done|]. apply ingest_records_slept.
Qed.

Lemma ingest_data_frame_witness :
  let w := Fixture.in_archive Fixture.old in
  files (ingest_data permissive Fixture.now 0 10 w).2 = files w.
Proof.
  intros w. by apply (ingest_data_frame permissive Fixture.now 0 10 w).
Defined.

(** X16.  After an ingestion that returns, every record number from 1 to
    [num_records] is retrieved at once from Hot, and what is retrieved is
    the record just generated for it, whatever Hot held under that
    identifier before.  (The file can be written and read, and [json]
    reads back what it wrote.) *)
Theorem ingest_then_retrieve `{L : PyLib} `{F : PyFormat} (E : env)
    (now num_records days_ago k : Z) (high_priority : bool)
    (w w' : world) (record : json) :
  ingest_data E now num_records days_ago w = (Ingested, w') →
  1 ≤ k ≤ num_records →
  generate_billing_record k (Datetime (now - days_ago * us_per_day) None)
  = Some record →
  deny_write E (Hot, billing_record_id k +:+ ".json") = false →
  deny_read E (Hot, billing_record_id k +:+ ".json") = false →
  json_loads (json_dumps record) = Some record →
  retrieve_data E (billing_record_id k) high_priority w' = (Return record, w').
Proof.
  intros Hrun Hk Hgen Hwr Hrd Hjson.
  pose proof (ingested_file E now num_records days_ago w w' k record
                Hrun Hk Hgen Hwr) as Hfile.
  rewrite retrieve_data_hot, read_data_eq
    by (rewrite ?tier_path_Hot; unfold in_tier; rewrite ?tier_path_Hot; eauto).
  rewrite tier_path_Hot. f_equal. f_equal. by apply read_value_plain.
Qed.

Lemma ingest_then_retrieve_witness :
  let date := Datetime (Fixture.now - 10 * us_per_day) None in
  let record := default JNull (generate_billing_record 1 date) in
  let w' := (ingest_data permissive Fixture.now 3 10 (Fixture.in_hot Fixture.old)).2 in
  retrieve_data permissive "BILL-00001" false w' = (Return record, w').
Proof.
  intros date record w'.
  apply (ingest_then_retrieve permissive Fixture.now 3 10 1 false
           (Fixture.in_hot Fixture.old) w' record).
  - vm_compute. reflexivity.
  - lia.
  - vm_compute. reflexivity.
  - reflexivity.
  - reflexivity.
  - vm_compute. reflexivity.
Defined.

(** X17.  Ingestion and a pass together: a record ingested as dated
    [days_ago] days back is, after the next pass, where its age puts it.
    With [days] the whole days from its date to the time of the pass, it is
    still in Hot when [days] is below 92, in Cool and no longer in Hot from
    92 to 365, and in Archive and in neither Hot nor Cool from 366 on.  (The
    library reads back the date and the record it printed, and the writes,
    reads and removals of the record's own files are not refused.) *)
Theorem ingested_record_tier `{L : PyLib} `{F : PyFormat} (E : env)
    (now num_records days_ago k pass_time : Z) (w w1 : world) (record : json) :
  let date := Datetime (now - days_ago * us_per_day) None in
  let record_id := billing_record_id k in
  let filename := record_id +:+ ".json" in
  let days := (pass_time - micros date) / us_per_day in
  listdir_lists →
  ingest_data E now num_records days_ago w = (Ingested, w1) →
  1 ≤ k ≤ num_records →
  generate_billing_record k date = Some record →
  fromisoformat (isoformat date) = Some date →
  json_loads (json_dumps record) = Some record →
  gzip_decompress (gzip_compress COOL_COMPRESSION_LEVEL (json_dumps record))
  = Some (json_dumps record) →
  deny_write E (Hot, filename) = false →
  deny_read E (Hot, filename) = false →
  deny_remove E (Hot, filename) = false →
  deny_write E (Cool, filename +:+ ".gz") = false →
  deny_read E (Cool, filename +:+ ".gz") = false →
  deny_remove E (Cool, filename +:+ ".gz") = false →
  deny_write E (Archive, filename +:+ ".gz") = false →
  let w2 := (manage_data_tiers E pass_time w1).2 in
  (days < 92 → files w2 !! tier_path Hot record_id = Some (json_dumps record))
  ∧ (92 ≤ days < 366 →
     files w2 !! tier_path Hot record_id = None
     ∧ files w2 !! tier_path Cool record_id
       = Some (gzip_compress COOL_COMPRESSION_LEVEL (json_dumps record)))
  ∧ (366 ≤ days →
     files w2 !! tier_path Hot record_id = None
     ∧ files w2 !! tier_path Cool record_id = None
     ∧ files w2 !! tier_path Archive record_id
       = Some (gzip_compress ARCHIVE_COMPRESSION_LEVEL (json_dumps record))).
Proof.
  intros date record_id filename days Hlist Hrun Hk Hgen Hiso Hjson Hgzip
    Hwr_hot Hrd_hot Hrm_hot Hwr_cool Hrd_cool Hrm_cool Hwr_arch w2.
  pose proof (ingested_file E now num_records days_ago w w1 k record
                Hrun Hk Hgen Hwr_hot) as Hfile.
  fold date record_id filename in Hfile.
  pose proof (read_value_plain E (files w1) (Hot, filename) record
                Hfile Hrd_hot Hjson) as Hread.
  assert (∀ threshold,
            due pass_time threshold record = age_reached days threshold) as Hdue.
  { intros threshold. unfold due.
    by rewrite (generated_record_age pass_time k date record). }
  assert (files w2 = cool_scan E pass_time (hot_scan E pass_time (files w1)))
    as Hw2 by (unfold w2; by rewrite manage_data_tiers_eq).
  rewrite Hw2, tier_path_Hot, tier_path_Cool, tier_path_Archive.
  fold filename.
  assert (endswith filename ".json" = true) as Hname by apply endswith_app.
  split; [|split].
  - intros Hdays. rewrite lookup_cool_scan_hot. apply hot_scan_keeps; [done|].
    unfold moves_from_hot. rewrite Hread, Hdue, Hname. cbn [andb].
    apply not_true_is_false. rewrite age_reached_hot. lia.
  - intros Hdays.
    destruct (stops_in_cool E pass_time (files w1) filename record)
      as (Hhot & Hcool & _); try done.
    + rewrite Hdue. apply age_reached_hot. lia.
    + rewrite Hdue. apply not_true_is_false. rewrite age_reached_cool. lia.
  - intros Hdays.
    destruct (hot_scan_moves E pass_time (files w1) filename record)
      as [Hhot Hcool]; try done.
    { rewrite Hdue. apply age_reached_hot. lia. }
    destruct (cool_scan_moves E pass_time (hot_scan E pass_time (files w1))
                filename record) as [Hcool2 Harch]; try done.
    + unfold filename. rewrite string_app_assoc. apply endswith_app.
    + apply replace_gz_billing_file.
    + rewrite (read_value_cool_copy E _ _ record) by done. by rewrite Hrd_cool.
    + rewrite Hdue. apply age_reached_cool. lia.
    + by rewrite lookup_cool_scan_hot.
Qed.

Lemma ingested_record_tier_witness :
  let date := Datetime (Fixture.now - 400 * us_per_day) None in
  let record := default JNull (generate_billing_record 2 date) in
  let w1 := (ingest_data permissive Fixture.now 3 400 (World ∅ 0)).2 in
  let w2 := (manage_data_tiers permissive Fixture.now w1).2 in
  files w2 !! tier_path Hot "BILL-00002" = None
  ∧ files w2 !! tier_path Cool "BILL-00002" = None
  ∧ files w2 !! tier_path Archive "BILL-00002"
    = Some (gzip_compress ARCHIVE_COMPRESSION_LEVEL (json_dumps record)).
Proof.
  intros date record w1 w2.
  apply (ingested_record_tier permissive Fixture.now 3 400 2 Fixture.now
           (World ∅ 0) w1 record).
  - apply Ref_listdir_ok.
  - vm_compute. reflexivity.
  - lia.
  - vm_compute. reflexivity.
  - vm_compute. reflexivity.
  - vm_compute. reflexivity.
  - vm_compute. reflexivity.
  - reflexivity.
  - reflexivity.
  - reflexivity.
  - reflexivity.
  - reflexivity.
  - reflexivity.
  - reflexivity.
  - vm_compute. discriminate.
Defined.

(** ** Writing and reading *)

(** X18.  [write_data] tells its caller nothing about failure: it returns
    normally whether or not the file was written, and it changes no other
    file.  After a write that succeeds the file holds the bytes of the
    record.  After one that fails because the file could not be opened, no
    file has changed; after one that fails once the file was opened, the
    file holds the part of those bytes that was written, and nothing of
    what it held before. *)
Theorem write_data_silent `{L : PyLib} (E : env) (p : path) (data : json)
    (level : option Z) (w : world) :
  let result := write_data E p data level w in
  result.1 = Return ()
  ∧ slept result.2 = slept w
  ∧ (∀ q, q ≠ p → files result.2 !! q = files w !! q)
  ∧ (deny_write E p = false →
     files result.2 !! p = Some (payload data level))
  ∧ (deny_write E p = true → torn_write E p = None →
     files result.2 = files w)
  ∧ (∀ n, deny_write E p = true → torn_write E p = Some n →
          files result.2 !! p
          = Some (String.substring 0 n (payload data level))).
Proof.
  intros result. unfold result. rewrite write_data_eq. cbn [fst snd files set_files].
  split; [done|]. split; [done|]. split; [|split; [|split]].
  - intros q Hq. by apply lookup_store_other.
  - intros Hdeny. unfold store. by rewrite Hdeny, lookup_insert_eq.
  - intros Hdeny Htorn. unfold store, torn. by rewrite Hdeny, Htorn.
  - intros n Hdeny Htorn. unfold store, torn.
    by rewrite Hdeny, Htorn, lookup_insert_eq.
Qed.

(** A Cool directory that cannot be written to: no file changes.  A write
    that fails after two bytes: those two bytes are what the file holds. *)
Lemma write_data_silent_witness :
  let w := Fixture.in_hot Fixture.aged in
  files (write_data Fixture.cool_refused Fixture.cool_file Fixture.aged
           (Some COOL_COMPRESSION_LEVEL) w).2 = files w
  ∧ files (write_data Fixture.cache_torn Fixture.cache_file Fixture.aged None
             Fixture.archived_stale_cache).2 !! Fixture.cache_file
    = Some (String.substring 0 2 (json_dumps Fixture.aged)).
Proof.
  intros w. split.
  - by apply (write_data_silent Fixture.cool_refused Fixture.cool_file Fixture.aged
                (Some COOL_COMPRESSION_LEVEL) w).
  - by apply (write_data_silent Fixture.cache_torn Fixture.cache_file Fixture.aged
                None Fixture.archived_stale_cache).
Defined.

(** X19.  [read_data] never raises and never changes a file; for a file
    that is missing or cannot be opened it returns [None], and so it does
    for a plain file that [json] cannot decode. *)
Theorem read_data_failure `{L : PyLib} (E : env) (p : path) (compressed : bool)
    (w : world) :
  (∃ v, read_data E p compressed w = (Return v, w))
  ∧ (files w !! p = None ∨ deny_read E p = true →
     read_data E p compressed w = (Return JNull, w))
  ∧ (∀ raw, files w !! p = Some raw → json_loads raw = None →
            read_data E p false w = (Return JNull, w)).
Proof.
  rewrite !read_data_eq. split; [by eexists|]. split.
  - intros [Hnone|Hdeny]; f_equal; f_equal; unfold read_value.
    + by rewrite Hnone.
    + destruct (files w !! p); [by rewrite Hdeny|done].
  - intros raw Hraw Hjson. f_equal. f_equal. unfold read_value.
    rewrite Hraw, Hjson. by destruct (deny_read E p).
Qed.

Lemma read_data_failure_witness :
  read_data permissive Fixture.cool_file true (Fixture.in_hot Fixture.aged)
  = (Return JNull, Fixture.in_hot Fixture.aged).
Proof.
  apply (read_data_failure permissive Fixture.cool_file true
           (Fixture.in_hot Fixture.aged)).
  left. vm_compute. reflexivity.
Defined.

(** ** No record lost *)

Section Conservation.
Context `{L : PyLib} (E : env).
Implicit Types (p src dst : path) (compressed : bool) (m : gmap path string).
Implicit Types (now threshold level : Z) (filename filename_gz record_id : string).

Lemma transfer_conserves now threshold level compressed src dst m record_id :
  src ≠ dst →
  deny_write E dst = false →
  (∀ t, tier_path t record_id = src →
        ∃ t', lifecycle_tier t' ∧ tier_path t' record_id = dst) →
  in_some_tier m record_id →
  in_some_tier (transfer E now threshold level compressed src dst m) record_id.
Proof.
  intros Hne Hwr Hlink (t & Ht & c & Hc).
  destruct (due now threshold (read_value E src compressed m)) eqn:Hdue;
    [|rewrite transfer_idle by done; exists t; split; [done|]; by exists c].
  destruct (decide (tier_path t record_id = src)) as [Hsrc|Hsrc].
  - destruct (Hlink t Hsrc) as (t' & Ht' & Hdst). exists t'. split; [done|].
    unfold in_tier. rewrite Hdst, lookup_transfer, Hdue by done.
    rewrite decide_False, decide_True, Hwr by done. by eexists.
  - exists t. split; [done|]. unfold in_tier.
    rewrite lookup_transfer, Hdue, decide_False by done.
    destruct (decide (tier_path t record_id = dst)); [|by exists c].
    rewrite Hwr. by eexists.
Qed.

Lemma hot_step_conserves now m filename record_id :
  deny_write E (Cool, filename +:+ ".gz") = false →
  in_some_tier m record_id → in_some_tier (hot_step E now m filename) record_id.
Proof.
  intros Hwr Hin. unfold hot_step. destruct (endswith filename ".json"); [|done].
  apply transfer_conserves; [done..| |done].
  intros t Heq. destruct t; try discriminate.
  rewrite tier_path_Hot in Heq. injection Heq as <-.
  exists Cool. by rewrite tier_path_Cool.
Qed.

Lemma cool_step_conserves now m filename_gz record_id :
  deny_write E (Archive, replace_gz filename_gz +:+ ".gz") = false →
  in_some_tier m record_id →
  in_some_tier (cool_step E now m filename_gz) record_id.
Proof.
  intros Hwr Hin. unfold cool_step.
  destruct (endswith filename_gz ".json.gz"); [|done].
  apply transfer_conserves; [done..| |done].
  intros t Heq. destruct t; try discriminate.
  rewrite tier_path_Cool in Heq. injection Heq as Heq.
  exists Archive. by rewrite tier_path_Archive, Heq.
Qed.

End Conservation.

(** X20.  A pass in which no write to Cool or Archive is refused loses no
    record: an identifier that is in one of Hot, Cool and Archive before
    the pass is in one of them after it, whatever removals are refused. *)
Theorem pass_loses_no_record `{L : PyLib} (E : env) (now : Z) (w : world)
    (record_id : string) :
  (∀ f, deny_write E (Cool, f) = false) →
  (∀ f, deny_write E (Archive, f) = false) →
  (∃ t, lifecycle_tier t ∧ in_tier (files w) t record_id) →
  ∃ t, lifecycle_tier t ∧ in_tier (files (manage_data_tiers E now w).2) t record_id.
Proof.
  intros Hcool Harch Hin. rewrite manage_data_tiers_eq. cbn [snd files set_files].
  unfold cool_scan, hot_scan.
  apply (foldl_invariant (cool_step E now) (λ s, in_some_tier s record_id)).
  { intros s x. by apply cool_step_conserves. }
  apply (foldl_invariant (hot_step E now) (λ s, in_some_tier s record_id));
    [|done].
  intros s x. by apply hot_step_conserves.
Qed.

Lemma pass_loses_no_record_witness :
  ∃ t, lifecycle_tier t
       ∧ in_tier (files (manage_data_tiers permissive Fixture.now
                           (Fixture.in_hot Fixture.old)).2) t "BILL-00001".
Proof.
  apply (pass_loses_no_record permissive Fixture.now (Fixture.in_hot Fixture.old)).
  - reflexivity.
  - reflexivity.
  - exists Hot. split; [done|]. eexists. vm_compute. reflexivity.
Defined.
